(** * A shallow embedding of the weave network plugin driver

    Source files: [plugin/driver/driver.go] and [plugin/driver/watcher.go].

    Go strings are byte sequences; they are modelled by [string], whose
    characters are the bytes.  The driver's handlers are embedded as
    computations in a small state-and-panic monad over the driver struct, the
    state of the external collaborators and a chronological trace of what the
    handler did (calls to collaborators, log lines, writes to the
    [http.ResponseWriter]). *)

From Stdlib Require Import NArith Ascii String Strings.Byte Bool List Lia.
From stdpp Require Import base strings gmap list.
Import ListNotations.

(** ** Go's string primitives used by the driver *)

Module GoString.

(** [len(s)] *)
Definition len (s : string) : nat := String.length s.

(** [s[i:j]], the half-open byte range.  Go panics unless
    [i <= j <= len(s)]; the panic is [None]. *)
Definition slice (s : string) (i j : nat) : option string :=
  if (i <=? j)%nat && (j <=? len s)%nat
  then Some (String.substring i (j - i) s)
  else None.

(** [s[:j]] *)
Definition slice_to (s : string) (j : nat) : option string := slice s 0 j.

(** [s[i:]] *)
Definition slice_from (s : string) (i : nat) : option string :=
  slice s i (len s).

(** [strings.HasSuffix]:
    [len(s) >= len(suffix) && s[len(s)-len(suffix):] == suffix]. *)
Definition HasSuffix (s suffix : string) : bool :=
  (len suffix <=? len s)%nat &&
  match slice_from s (len s - len suffix) with
  | Some t => String.eqb t suffix
  | None => false
  end.

End GoString.

(** ** watcher.go: constants and the subdomain test *)

Definition WeaveDNSContainer : string := "weavedns".
Definition WeaveDomain : string := "weave.local".

(** [isSubdomain]: [x == y || strings.HasSuffix(x, "."+y)]. *)
Definition isSubdomain (x y : string) : bool :=
  String.eqb x y || GoString.HasSuffix x ("." +:+ y).

(** ** driver.go: constants *)

Definition MethodReceiver : string := "NetworkDriver".
Definition WeaveContainer : string := "weave".
Definition WeaveBridge : string := "weave".

(** ** netlink's veth description and [vethPair] *)

Record Veth := mkVeth {
  Name : string;      (* LinkAttrs.Name *)
  PeerName : string
}.

Definition vethPair (suffix : string) : Veth :=
  {| Name := "vethwl" +:+ suffix; PeerName := "vethwg" +:+ suffix |}.

(** ** The net package: IP addresses and hardware addresses *)

Module Net.

(** [net.IP] and [net.HardwareAddr] are byte slices; [nil] is the empty
    list (of length 0, as in Go). *)
Definition IP := list byte.
Definition HardwareAddr := list byte.

Definition IPv4len : nat := 4.
Definition IPv6len : nat := 16.

Definition isZeros (p : list byte) : bool :=
  forallb (fun b => Byte.eqb b x00) p.

(** [IP.To4]: a 4-byte address as it is, the last four bytes of a 16-byte
    IPv4-mapped address, and nil for anything else. *)
Definition To4 (ip : IP) : IP :=
  if (length ip =? IPv4len)%nat then ip
  else if (length ip =? IPv6len)%nat
          && isZeros (firstn 10 ip)
          && Byte.eqb (nth 10 ip x00) xff
          && Byte.eqb (nth 11 ip x00) xff
  then firstn 4 (skipn 12 ip)
  else [].

Definition hexDigit : string := "0123456789abcdef".

(** [hexDigit[i]], for [i < 16]. *)
Definition hexDigitAt (i : N) : ascii :=
  match String.get (N.to_nat i) hexDigit with
  | Some c => c
  | None => "0"%char
  end.

(** The two characters [hexDigit[b>>4]], [hexDigit[b&0xF]]. *)
Definition hexByte (b : byte) : string :=
  String (hexDigitAt (N.shiftr (Byte.to_N b) 4))
    (String (hexDigitAt (N.land (Byte.to_N b) 15)) EmptyString).

(** [HardwareAddr.String]: the bytes in hex, separated by colons. *)
Fixpoint HardwareAddr_String (a : HardwareAddr) : string :=
  match a with
  | [] => EmptyString
  | [b] => hexByte b
  | b :: rest => hexByte b +:+ ":" +:+ HardwareAddr_String rest
  end.

End Net.

(** The builtin [copy(dst, src)]: overwrites the first
    [min(len(dst), len(src))] elements of [dst]. *)
Definition copy {A} (dst src : list A) : list A :=
  firstn (length dst) src ++ skipn (length src) dst.

(** [makeMac]: a 6-byte hardware address, bytes 0 and 1 fixed, bytes 2..5
    copied from [ip.To4()]. *)
Definition makeMac (ip : Net.IP) : string :=
  let hw : Net.HardwareAddr := repeat x00 6 in
  let hw := <[0 := x7a]> hw in
  let hw := <[1 := x42]> hw in
  let hw := firstn 2 hw ++ copy (skipn 2 hw) (Net.To4 ip) in
  Net.HardwareAddr_String hw.

(** ** fmt.Sprintf, for the verb the driver's messages use

    [%s] is replaced by the next argument; every other byte is copied.  A
    missing argument prints as Go prints it. *)
Fixpoint Sprintf (format : string) (args : list string) : string :=
  match format with
  | EmptyString => EmptyString
  | String "%" (String "s" rest) =>
      match args with
      | a :: args' => a +:+ Sprintf rest args'
      | [] => "%!s(MISSING)" +:+ Sprintf rest []
      end
  | String c rest => String c (Sprintf rest args)
  end.

(** The double quote character, for the messages that quote a device name. *)
Definition dquote : string := String (ascii_of_nat 34) EmptyString.

(** ** Values exchanged with the collaborators *)

(** A Go [error] value, by its message; [nil] is [None] where a function
    returns only an error. *)
Definition error := string.

Inductive result (A : Type) : Type :=
| Ok (a : A)
| Err (e : error).
Arguments Ok {A} a.
Arguments Err {A} e.

Module Docker.
(** The fields of go-dockerclient's [Container] that the watcher reads. *)
Record ConfigT := mkConfig { Hostname : string; Domainname : string }.
Record NetworkSettingsT := mkNetworkSettings { IPAddress : string }.
Record Container := mkContainer {
  Config : ConfigT;
  NetworkSettings : NetworkSettingsT
}.
(** [docker.APIEvents] *)
Record APIEvents := mkEvent { Status : string; ID : string }.
End Docker.

(** [net.IPNet] *)
Record IPNet := mkIPNet { IP : Net.IP; Mask : list byte }.

(** A [netlink.Link] as [LinkByName] returns it: the driver only asks
    whether it is a [*netlink.Bridge]. *)
Inductive Link :=
| Bridge (name : string)
| VethLink (v : Veth)
| Device (kind name : string).

Definition linkName (l : Link) : string :=
  match l with
  | Bridge name => name
  | VethLink v => Name v
  | Device _ name => name
  end.

(** ** libnetwork's remote API: requests and responses *)

Module Api.
Record CreateNetworkRequest := mkCreateNetwork { cn_NetworkID : string }.
Record DeleteNetworkRequest := mkDeleteNetwork { dn_NetworkID : string }.
Record CreateEndpointRequest :=
  mkCreateEndpoint { ce_NetworkID : string; ce_EndpointID : string }.
Record DeleteEndpointRequest :=
  mkDeleteEndpoint { de_NetworkID : string; de_EndpointID : string }.
Record JoinRequest := mkJoin {
  j_NetworkID : string; j_EndpointID : string; j_SandboxKey : string
}.
Record LeaveRequest :=
  mkLeave { l_NetworkID : string; l_EndpointID : string }.

Record EndpointInterface :=
  mkEndpointInterface { Address : string; MacAddress : string }.
Record CreateEndpointResponse :=
  mkCreateEndpointResponse { Interface : EndpointInterface }.
Record InterfaceName :=
  mkInterfaceName { SrcName : string; DstPrefix : string }.
Inductive RouteType := NEXTHOP | CONNECTED.
Record StaticRoute := mkStaticRoute {
  Destination : string; routeType : RouteType; NextHop : string
}.
Record JoinResponse := mkJoinResponse {
  InterfaceName_ : InterfaceName;
  StaticRoutes : list StaticRoute
}.
End Api.

(** The outcome of [json.NewDecoder(r.Body).Decode(&req)]. *)
Inductive body (A : Type) : Type :=
| Decoded (req : A)
| Malformed (err : error).
Arguments Decoded {A} req.
Arguments Malformed {A} err.

(** ** What a handler does, in order *)

(** What is encoded to the response writer with status 200. *)
Inductive payload :=
| PEmpty                                   (* map[string]string{} *)
| PErr (msg : string)                      (* {"Err": msg} *)
| PCreateEndpoint (resp : Api.CreateEndpointResponse)
| PJoin (resp : Api.JoinResponse).

Inductive reply :=
| Json (p : payload)
| HttpError (code : nat) (msg : string).   (* http.Error *)

Definition StatusBadRequest : nat := 400.
Definition StatusInternalServerError : nat := 500.

Inductive call :=
| CInspectContainer (id : string)
| CAllocateIP (endID : string)
| CReleaseIP (endID : string)
| CRegisterWithDNS (id fqdn ip : string)
| CDeregisterWithDNS (id ip : string)
| CLinkAdd (v : Veth)
| CLinkByName (name : string)
| CLinkSetMaster (v : Veth) (bridge : string)
| CLinkSetUp (v : Veth)
| CLinkDel (v : Veth).

Inductive level := Debug | Info | Warning | Error.

(** A log argument: a string, an integer, or a struct by its string fields
    in declaration order. *)
Inductive logarg :=
| LStr (s : string)
| LInt (n : nat)
| LVal (fields : list string).

Inductive event :=
| ECall (c : call)
| ELog (l : level) (format : string) (args : list logarg)
| EReply (r : reply).

Definition replies (tr : list event) : list reply :=
  omap (fun e => match e with EReply r => Some r | _ => None end) tr.

Definition calls (tr : list event) : list call :=
  omap (fun e => match e with ECall c => Some c | _ => None end) tr.

Definition logged (tr : list event) : list (level * string) :=
  omap (fun e => match e with ELog l f _ => Some (l, f) | _ => None end) tr.

(** ** The driver and the watcher structs *)

Record watcher := mkWatcher {
  networks : gmap string bool
}.

Record driver := mkDriver {
  version : string;
  network : string;
  nameserver : string;
  watcher_ : watcher        (* the field [watcher] *)
}.

(** ** The collaborators

    [dockerer]'s methods and the netlink calls are not part of the two source
    files; they are taken as operations on an abstract external state [W]. *)

Class Dockerer (W : Type) := {
  InspectContainer : string -> W -> result Docker.Container * W;
  allocateIP : string -> W -> result IPNet * W;
  releaseIP : string -> W -> option error * W;
  registerWithDNS : string -> string -> string -> W -> option error * W;
  deregisterWithDNS : string -> string -> W -> option error * W;
  (** the [String] method of [net.IPNet] *)
  IPNet_String : IPNet -> string
}.

Class Netlink (W : Type) := {
  LinkAdd : Veth -> W -> option error * W;
  LinkByName : string -> W -> result Link * W;
  LinkSetMaster : Veth -> string -> W -> option error * W;
  LinkSetUp : Veth -> W -> option error * W;
  LinkDel : Veth -> W -> option error * W
}.

(** ** The handler monad: state, trace and Go panics *)

Inductive panic := SliceBoundsOutOfRange.

Inductive outcome (A : Type) : Type :=
| Done (a : A)
| Panicked (p : panic).
Arguments Done {A} a.
Arguments Panicked {A} p.

Record sys (W : Type) := mkSys {
  drv : driver;
  world : W;
  trace : list event
}.
Arguments mkSys {W} drv world trace.
Arguments drv {W} s.
Arguments world {W} s.
Arguments trace {W} s.

Definition M (W A : Type) : Type := sys W -> outcome A * sys W.

#[export] Instance M_ret {W} : MRet (M W) :=
  fun A a s => (Done a, s).

#[export] Instance M_bind {W} : MBind (M W) :=
  fun A B f m s =>
    match m s with
    | (Done a, s') => f a s'
    | (Panicked p, s') => (Panicked p, s')
    end.

Section Primitives.
Context {W : Type}.

Definition emit (e : event) : M W unit :=
  fun s => (Done tt, mkSys (drv s) (world s) (trace s ++ [e])).

Definition raise {A} (p : panic) : M W A :=
  fun s => (Panicked p, s).

Definition getDriver : M W driver :=
  fun s => (Done (drv s), s).

Definition setDriver (d : driver) : M W unit :=
  fun s => (Done tt, mkSys d (world s) (trace s)).

(** A call to a collaborator: recorded in the trace, answered by [f]. *)
Definition external {A} (c : call) (f : W -> A * W) : M W A :=
  fun s =>
    let '(a, w') := f (world s) in
    (Done a, mkSys (drv s) w' (trace s ++ [ECall c])).

Definition logf (l : level) (format : string) (args : list logarg) : M W unit :=
  emit (ELog l format args).

Definition respond (r : reply) : M W unit := emit (EReply r).

(** A slice expression: its value, or the run-time panic. *)
Definition sliced (o : option string) : M W string :=
  match o with
  | Some t => mret t
  | None => raise SliceBoundsOutOfRange
  end.

(** *** driver.go: the response helpers *)

Definition sendError (msg : string) (code : nat) : M W unit :=
  logf Error "%d %s" [LInt code; LStr msg] ;;
  respond (HttpError code msg).

Definition errorResponsef (fmtString : string) (item : list string) : M W unit :=
  respond (Json (PErr (Sprintf fmtString item))).

(** The encoder writes into the response writer; encoding these values
    does not fail, so the error branch of [objectResponse] is not taken. *)
Definition objectResponse (obj : payload) : M W unit :=
  respond (Json obj).

Definition emptyResponse : M W unit :=
  respond (Json PEmpty).

(** *** watcher.go: the watched set *)

Definition setNetworks (n : gmap string bool) : M W unit :=
  d ← getDriver;
  setDriver (mkDriver (version d) (network d) (nameserver d) (mkWatcher n)).

Definition WatchNetwork (uuid : string) : M W unit :=
  logf Debug "Watch network %s" [LStr uuid] ;;
  d ← getDriver;
  setNetworks (<[uuid := true]> (networks (watcher_ d))).

Definition UnwatchNetwork (uuid : string) : M W unit :=
  logf Debug "Unwatch network %s" [LStr uuid] ;;
  d ← getDriver;
  setNetworks (delete uuid (networks (watcher_ d))).

(** [driver.network = id] *)
Definition setNetwork (id : string) : M W unit :=
  d ← getDriver;
  setDriver (mkDriver (version d) id (nameserver d) (watcher_ d)).

End Primitives.

(** ** driver.go: the protocol handlers *)

Section Handlers.
Context {W : Type} `{!Dockerer W} `{!Netlink W}.

Definition createNetwork (b : body Api.CreateNetworkRequest) : M W unit :=
  match b with
  | Malformed err =>
      sendError ("Unable to decode JSON payload: " +:+ err) StatusBadRequest
  | Decoded create =>
      logf Debug "Create network request %+v" [LVal [Api.cn_NetworkID create]] ;;
      d ← getDriver;
      if negb (String.eqb (network d) EmptyString) then
        errorResponsef "You get just one network, and you already made %s"
          [network d]
      else
        setNetwork (Api.cn_NetworkID create) ;;
        d ← getDriver;
        WatchNetwork (network d) ;;
        emptyResponse ;;
        d ← getDriver;
        logf Info "Create network %s" [LStr (network d)]
  end.

Definition deleteNetwork (b : body Api.DeleteNetworkRequest) : M W unit :=
  match b with
  | Malformed err =>
      sendError ("Unable to decode JSON payload: " +:+ err) StatusBadRequest
  | Decoded delete =>
      logf Debug "Delete network request: %+v" [LVal [Api.dn_NetworkID delete]] ;;
      d ← getDriver;
      if negb (String.eqb (Api.dn_NetworkID delete) (network d)) then
        errorResponsef "Network %s not found" [Api.dn_NetworkID delete]
      else
        setNetwork EmptyString ;;
        UnwatchNetwork (Api.dn_NetworkID delete) ;;
        emptyResponse ;;
        logf Info "Destroy network %s" [LStr (Api.dn_NetworkID delete)]
  end.

Definition createEndpoint (b : body Api.CreateEndpointRequest) : M W unit :=
  match b with
  | Malformed err =>
      sendError ("Unable to decode JSON payload: " +:+ err) StatusBadRequest
  | Decoded create =>
      logf Debug "Create endpoint request %+v"
        [LVal [Api.ce_NetworkID create; Api.ce_EndpointID create]] ;;
      let netID := Api.ce_NetworkID create in
      let endID := Api.ce_EndpointID create in
      d ← getDriver;
      if negb (String.eqb netID (network d)) then
        errorResponsef "No such network %s" [netID]
      else
        r ← external (CAllocateIP endID) (allocateIP endID);
        match r with
        | Err err =>
            logf Warning "Error allocating IP: %s" [LStr err] ;;
            sendError "Unable to allocate IP" StatusInternalServerError
        | Ok ip =>
            logf Debug "Got IP from IPAM %s" [LStr (IPNet_String ip)] ;;
            let mac := makeMac (IP ip) in
            let respIface := Api.mkEndpointInterface (IPNet_String ip) mac in
            let resp := Api.mkCreateEndpointResponse respIface in
            objectResponse (PCreateEndpoint resp) ;;
            logf Info "Create endpoint %s %+v"
              [LStr endID; LVal [IPNet_String ip; mac]]
        end
  end.

Definition deleteEndpoint (b : body Api.DeleteEndpointRequest) : M W unit :=
  match b with
  | Malformed _ =>
      sendError "Could not decode JSON encode payload" StatusBadRequest
  | Decoded delete =>
      logf Debug "Delete endpoint request: %+v"
        [LVal [Api.de_NetworkID delete; Api.de_EndpointID delete]] ;;
      emptyResponse ;;
      e ← external (CReleaseIP (Api.de_EndpointID delete))
            (releaseIP (Api.de_EndpointID delete));
      match e with
      | Some err => logf Warning "error releasing IP: %s" [LStr err]
      | None => mret tt
      end ;;
      logf Info "Delete endpoint %s" [LStr (Api.de_EndpointID delete)]
  end.

Definition fmt_bridge_not_present : string :=
  "bridge " +:+ dquote +:+ "%s" +:+ dquote +:+ " not present".
Definition fmt_not_a_bridge : string :=
  "device " +:+ dquote +:+ "%s" +:+ dquote +:+ " not a bridge".

Definition joinEndpoint (b : body Api.JoinRequest) : M W unit :=
  match b with
  | Malformed _ =>
      sendError "Could not decode JSON encode payload" StatusBadRequest
  | Decoded j =>
      logf Debug "Join request: %+v"
        [LVal [Api.j_NetworkID j; Api.j_EndpointID j; Api.j_SandboxKey j]] ;;
      let endID := Api.j_EndpointID j in
      suffix ← sliced (GoString.slice_to endID 5);
      let local := vethPair suffix in
      e ← external (CLinkAdd local) (LinkAdd local);
      match e with
      | Some err =>
          logf Error "%v" [LStr err] ;;
          errorResponsef "could not create veth pair" []
      | None =>
          r ← external (CLinkByName WeaveBridge) (LinkByName WeaveBridge);
          match r with
          | Err err =>
              logf Error "%v" [LStr err] ;;
              errorResponsef fmt_bridge_not_present [WeaveBridge]
          | Ok (Bridge bridge) =>
              e1 ← external (CLinkSetMaster local bridge)
                     (LinkSetMaster local bridge);
              e2 ← match e1 with
                   | Some _ => mret e1
                   | None => external (CLinkSetUp local) (LinkSetUp local)
                   end;
              match e2 with
              | Some _ => errorResponsef "unable to bring veth up" []
              | None =>
                  let ifname := Api.mkInterfaceName (PeerName local) "ethwe" in
                  d ← getDriver;
                  let routes :=
                    if negb (String.eqb (nameserver d) EmptyString) then
                      [Api.mkStaticRoute (nameserver d +:+ "/32")
                         Api.CONNECTED EmptyString]
                    else [] in
                  objectResponse (PJoin (Api.mkJoinResponse ifname routes)) ;;
                  logf Info "Join endpoint %s:%s to %s"
                    [LStr (Api.j_NetworkID j); LStr (Api.j_EndpointID j);
                     LStr (Api.j_SandboxKey j)]
              end
          | Ok maybeBridge =>
              logf Error "%s is %+v"
                [LStr WeaveBridge; LVal [linkName maybeBridge]] ;;
              errorResponsef fmt_not_a_bridge [WeaveBridge]
          end
      end
  end.

Definition leaveEndpoint (b : body Api.LeaveRequest) : M W unit :=
  match b with
  | Malformed _ =>
      sendError "Could not decode JSON encode payload" StatusBadRequest
  | Decoded l =>
      logf Debug "Leave request: %+v"
        [LVal [Api.l_NetworkID l; Api.l_EndpointID l]] ;;
      suffix ← sliced (GoString.slice_to (Api.l_EndpointID l) 5);
      let local := vethPair suffix in
      e ← external (CLinkDel local) (LinkDel local);
      match e with
      | Some err => logf Warning "unable to delete veth on leave: %s" [LStr err]
      | None => mret tt
      end ;;
      emptyResponse ;;
      logf Info "Leave %s:%s" [LStr (Api.l_NetworkID l); LStr (Api.l_EndpointID l)]
  end.

(** ** watcher.go: the event handlers *)

Definition ContainerStart (id : string) : M W unit :=
  logf Debug "Container started %s" [LStr id] ;;
  r ← external (CInspectContainer id) (InspectContainer id);
  match r with
  | Err err => logf Warning "error inspecting container: %s" [LStr err]
  | Ok info =>
      if isSubdomain (Docker.Domainname (Docker.Config info)) WeaveDomain then
        let ip := Docker.IPAddress (Docker.NetworkSettings info) in
        let fqdn := Sprintf "%s.%s"
                      [Docker.Hostname (Docker.Config info);
                       Docker.Domainname (Docker.Config info)] in
        e ← external (CRegisterWithDNS id fqdn ip) (registerWithDNS id fqdn ip);
        match e with
        | Some err => logf Warning "unable to register with weaveDNS: %s" [LStr err]
        | None => mret tt
        end
      else mret tt
  end.

Definition ContainerDied (id : string) : M W unit :=
  logf Debug "Container died %s" [LStr id] ;;
  r ← external (CInspectContainer id) (InspectContainer id);
  match r with
  | Err err => logf Warning "error inspecting container: %s" [LStr err]
  | Ok info =>
      if isSubdomain (Docker.Domainname (Docker.Config info)) WeaveDomain then
        let ip := Docker.IPAddress (Docker.NetworkSettings info) in
        e ← external (CDeregisterWithDNS id ip) (deregisterWithDNS id ip);
        match e with
        | Some err => logf Warning "unable to deregister with weaveDNS: %s" [LStr err]
        | None => mret tt
        end
      else mret tt
  end.

(** The body of the loop in [NewWatcher]: the switch on [event.Status]. *)
Definition handleEvent (event : Docker.APIEvents) : M W unit :=
  if String.eqb (Docker.Status event) "start" then
    ContainerStart (Docker.ID event)
  else if String.eqb (Docker.Status event) "die" then
    ContainerDied (Docker.ID event)
  else mret tt.

(** [for event := range w.events], over the events delivered before the
    channel is closed. *)
Fixpoint eventLoop (events : list Docker.APIEvents) : M W unit :=
  match events with
  | [] => mret tt
  | event :: rest => handleEvent event ;; eventLoop rest
  end.

(** Handlers served one after the other. *)
Fixpoint serveAll (hs : list (M W unit)) : M W unit :=
  match hs with
  | [] => mret tt
  | h :: rest => h ;; serveAll rest
  end.

End Handlers.

(** [New]: the driver as constructed, once the docker client and the event
    subscription are in place: no network, no nameserver, nothing watched. *)
Definition New (version : string) : driver :=
  mkDriver version EmptyString EmptyString (mkWatcher ∅).

(** Running a computation on a driver and a world, from an empty trace. *)
Definition run {W A} (m : M W A) (d : driver) (w : W) : outcome A * sys W :=
  m (mkSys d w []).

(** ** A test double for the collaborators

    Every call is counted; when [failing] is set every call answers with an
    error, otherwise with the canned values. *)

Record stub := mkStub {
  failing : bool;
  inspected : Docker.Container;
  lease : IPNet;
  bridgeLink : Link;
  ncalls : nat
}.

Definition stubCalled (w : stub) : stub :=
  mkStub (failing w) (inspected w) (lease w) (bridgeLink w) (S (ncalls w)).

Definition stubErr (w : stub) : option error * stub :=
  (if failing w then Some "stub failure" else None, stubCalled w).

Definition stubRes {A} (a : A) (w : stub) : result A * stub :=
  (if failing w then Err "stub failure" else Ok a, stubCalled w).

#[export] Instance stub_dockerer : Dockerer stub := {|
  InspectContainer := fun _ w => stubRes (inspected w) w;
  allocateIP := fun _ w => stubRes (lease w) w;
  releaseIP := fun _ w => stubErr w;
  registerWithDNS := fun _ _ _ w => stubErr w;
  deregisterWithDNS := fun _ _ w => stubErr w;
  IPNet_String := fun n => Net.HardwareAddr_String (IP n) +:+ "/" +:+
                           Net.HardwareAddr_String (Mask n)
|}.

#[export] Instance stub_netlink : Netlink stub := {|
  LinkAdd := fun _ w => stubErr w;
  LinkByName := fun _ w => stubRes (bridgeLink w) w;
  LinkSetMaster := fun _ _ w => stubErr w;
  LinkSetUp := fun _ w => stubErr w;
  LinkDel := fun _ w => stubErr w
|}.

Definition aContainer : Docker.Container :=
  Docker.mkContainer (Docker.mkConfig "web" "weave.local")
    (Docker.mkNetworkSettings "10.0.0.1").

Definition aLease : IPNet := mkIPNet [x0a; x00; x00; x01] [xff; x00; x00; x00].

Definition goodWorld : stub := mkStub false aContainer aLease (Bridge "weave") 0.
Definition badWorld : stub := mkStub true aContainer aLease (Bridge "weave") 0.

(** A driver that has accepted CreateNetwork for net1. *)
Definition oneNetwork : driver :=
  mkDriver "1.0" "net1" EmptyString (mkWatcher {[ "net1" := true ]}).



(** ** Definitions used to state the properties *)

(** Reading a hex byte back, the inverse of [Net.hexByte]. *)

(** The value of a hex digit, by its position in [hexDigit]. *)
Definition hexVal (c : ascii) : option N :=
  N.of_nat <$> String.index 0 (String c EmptyString) Net.hexDigit.

Definition parseHexByte (s : string) : option byte :=
  match s with
  | String h (String l EmptyString) =>
      hi ← hexVal h; lo ← hexVal l; Byte.of_N (hi * 16 + lo)%N
  | _ => None
  end.

Section Replies.
Context {W : Type} `{!Dockerer W} `{!Netlink W}.

(** The payload errors of CreateNetwork and DeleteNetwork. *)
Definition alreadyMade (existing : string) : reply :=
  Json (PErr ("You get just one network, and you already made " +:+ existing)).

Definition notFound (id : string) : reply :=
  Json (PErr ("Network " +:+ id +:+ " not found")).

(** One create request per id, in order. *)
Definition createRequests (ids : list string) : list (M W unit) :=
  map (fun id => createNetwork (Decoded (Api.mkCreateNetwork id))) ids.

End Replies.




(** The device pair a netlink call is about. *)
Definition callVeth (c : call) : option Veth :=
  match c with
  | CLinkAdd v | CLinkSetMaster v _ | CLinkSetUp v | CLinkDel v => Some v
  | _ => None
  end.

(** The calls to the address allocator in a trace. *)
Definition isAllocatorCall (c : call) : bool :=
  match c with
  | CAllocateIP _ | CReleaseIP _ => true
  | _ => false
  end.


(** ** driver.go: [Listen]'s method table and [SetNameserver] *)

(** A request for one of the methods that [Listen] registers under
    [MethodReceiver] and whose handler reads or writes the driver or calls a
    collaborator, with the outcome of decoding its body. *)
Inductive request :=
| CreateNetwork (b : body Api.CreateNetworkRequest)
| DeleteNetwork (b : body Api.DeleteNetworkRequest)
| CreateEndpoint (b : body Api.CreateEndpointRequest)
| DeleteEndpoint (b : body Api.DeleteEndpointRequest)
| Join (b : body Api.JoinRequest)
| Leave (b : body Api.LeaveRequest).

(** The method name a request is routed by. *)
Definition methodName (r : request) : string :=
  match r with
  | CreateNetwork _ => "CreateNetwork"
  | DeleteNetwork _ => "DeleteNetwork"
  | CreateEndpoint _ => "CreateEndpoint"
  | DeleteEndpoint _ => "DeleteEndpoint"
  | Join _ => "Join"
  | Leave _ => "Leave"
  end.

(** The path [handleMethod] registers: [fmt.Sprintf("/%s.%s", ...)]. *)
Definition routePath (r : request) : string :=
  Sprintf "/%s.%s" [MethodReceiver; methodName r].

Section Dispatch.
Context {W : Type} `{!Dockerer W} `{!Netlink W}.

(** The handler [Listen] registers for the request's method. *)
Definition handleMethod (r : request) : M W unit :=
  match r with
  | CreateNetwork b => createNetwork b
  | DeleteNetwork b => deleteNetwork b
  | CreateEndpoint b => createEndpoint b
  | DeleteEndpoint b => deleteEndpoint b
  | Join b => joinEndpoint b
  | Leave b => leaveEndpoint b
  end.

(** Requests served one after the other. *)
Definition serveRequests (rs : list request) : M W unit :=
  serveAll (map handleMethod rs).

End Dispatch.

Section Nameserver.
(** [net.ParseIP], which answers nil (the empty slice) for a string that is
    not an IP address. *)
Variable ParseIP : string -> Net.IP.

Definition fmt_cannot_parse : string :=
  "cannot parse IP address " +:+ dquote +:+ "%s" +:+ dquote.

(** [SetNameserver]: the error, if any, and the driver afterwards. *)
Definition SetNameserver (ns : string) (d : driver) : option error * driver :=
  match ParseIP ns with
  | [] => (Some (Sprintf fmt_cannot_parse [ns]), d)
  | _ :: _ => (None, mkDriver (version d) (network d) ns (watcher_ d))
  end.

End Nameserver.

(** A test double for [net.ParseIP] that knows one address. *)
Definition parseOnlyDNS (s : string) : Net.IP :=
  if String.eqb s "10.0.0.53" then [x0a; x00; x00; x35] else [].

(** ** More definitions used to state properties *)

(** The decoder's error, for a request whose body is malformed. *)
Definition decodeError (r : request) : option error :=
  match r with
  | CreateNetwork (Malformed e) | DeleteNetwork (Malformed e)
  | CreateEndpoint (Malformed e) | DeleteEndpoint (Malformed e)
  | Join (Malformed e) | Leave (Malformed e) => Some e
  | _ => None
  end.

(** The message sent with status 400 for a decoder error [err]. *)
Definition decodeFailureMessage (r : request) (err : error) : string :=
  match r with
  | CreateNetwork _ | DeleteNetwork _ | CreateEndpoint _ =>
      "Unable to decode JSON payload: " +:+ err
  | DeleteEndpoint _ | Join _ | Leave _ =>
      "Could not decode JSON encode payload"
  end.

(** A decoded Join or Leave request whose endpoint id has fewer than 5
    bytes. *)
Definition shortEndpointID (r : request) : bool :=
  match r with
  | Join (Decoded j) => GoString.len (Api.j_EndpointID j) <? 5
  | Leave (Decoded l) => GoString.len (Api.l_EndpointID l) <? 5
  | _ => false
  end.

Definition isNetworkRequest (r : request) : bool :=
  match r with
  | CreateNetwork _ | DeleteNetwork _ => true
  | _ => false
  end.

(** The watched set follows the stored network id: a nonempty id is watched
    exactly when it is the stored one. *)
Definition watchedFollowsNetwork (d : driver) : Prop :=
  forall id : string,
    id <> EmptyString ->
    networks (watcher_ d) !! id =
      if decide (id = network d) then Some true else None.

(** The container a call inspects. *)
Definition inspectedId (c : call) : option string :=
  match c with
  | CInspectContainer id => Some id
  | _ => None
  end.

(** The calls the watcher makes: inspection and the name registrar. *)
Definition isWatcherCall (c : call) : bool :=
  match c with
  | CInspectContainer _ | CRegisterWithDNS _ _ _ | CDeregisterWithDNS _ _ => true
  | _ => false
  end.

(** The statuses the event loop reacts to. *)
Definition startOrDie (event : Docker.APIEvents) : bool :=
  String.eqb (Docker.Status event) "start" ||
  String.eqb (Docker.Status event) "die".

Definition isLinkDel (c : call) : bool :=
  match c with
  | CLinkDel _ => true
  | _ => false
  end.

(** The route sent with a Join answer when a nameserver is configured. *)
Definition routeToDNS (nameserver : string) : Api.StaticRoute :=
  Api.mkStaticRoute (nameserver +:+ "/32") Api.CONNECTED EmptyString.

Definition joinAnswer (local : Veth) (nameserver : string) : reply :=
  Json (PJoin (Api.mkJoinResponse
                 (Api.mkInterfaceName (PeerName local) "ethwe")
                 (if String.eqb nameserver EmptyString then []
                  else [routeToDNS nameserver]))).

(** An IPv6 address that is not IPv4-mapped: the loopback address. *)
Definition ipv6Loopback : Net.IP :=
  [x00; x00; x00; x00; x00; x00; x00; x00;
   x00; x00; x00; x00; x00; x00; x00; x01].

(** A world whose network device named weave is not a bridge. *)
Definition noBridgeWorld : stub :=
  mkStub false aContainer aLease (Device "dummy" "weave") 0.

(** The calls to the network-device layer. *)
Definition isNetlinkCall (c : call) : bool :=
  match c with
  | CLinkAdd _ | CLinkByName _ | CLinkSetMaster _ _ | CLinkSetUp _ | CLinkDel _ =>
      true
  | _ => false
  end.

(** The payload errors of Join. *)
Definition joinError (msg : string) : reply := Json (PErr msg).

Definition bridgeNotPresent : string :=
  "bridge " +:+ dquote +:+ "weave" +:+ dquote +:+ " not present".

Definition notABridge : string :=
  "device " +:+ dquote +:+ "weave" +:+ dquote +:+ " not a bridge".

(** ** A scripted test double

    The world is the list of outcomes still to come: each call takes the
    head, true for success and false for failure; when the list is used up
    calls succeed.  [LinkByName] finds the link given with the script. *)

Record scripted := mkScripted {
  outcomes : list bool;
  foundLink : Link
}.

Definition scriptedNext (w : scripted) : bool * scripted :=
  match outcomes w with
  | [] => (true, w)
  | ok :: rest => (ok, mkScripted rest (foundLink w))
  end.

Definition scriptedErr (w : scripted) : option error * scripted :=
  let '(ok, w') := scriptedNext w in
  (if ok then None else Some "scripted failure", w').

Definition scriptedRes {A} (a : A) (w : scripted) : result A * scripted :=
  let '(ok, w') := scriptedNext w in
  (if ok then Ok a else Err "scripted failure", w').

#[export] Instance scripted_dockerer : Dockerer scripted := {|
  InspectContainer := fun _ w => scriptedRes aContainer w;
  allocateIP := fun _ w => scriptedRes aLease w;
  releaseIP := fun _ w => scriptedErr w;
  registerWithDNS := fun _ _ _ w => scriptedErr w;
  deregisterWithDNS := fun _ _ w => scriptedErr w;
  IPNet_String := fun n => Net.HardwareAddr_String (IP n) +:+ "/" +:+
                           Net.HardwareAddr_String (Mask n)
|}.

#[export] Instance scripted_netlink : Netlink scripted := {|
  LinkAdd := fun _ w => scriptedErr w;
  LinkByName := fun _ w => scriptedRes (foundLink w) w;
  LinkSetMaster := fun _ _ w => scriptedErr w;
  LinkSetUp := fun _ w => scriptedErr w;
  LinkDel := fun _ w => scriptedErr w
|}.

(** A world whose calls follow the script, with weave a bridge. *)
Definition scriptWorld (script : list bool) : scripted :=
  mkScripted script (Bridge "weave").

(** A driver with a network and a nameserver. *)
Definition withNameserver : driver :=
  mkDriver "1.0" "net1" "10.0.0.53" (mkWatcher {[ "net1" := true ]}).

(** * Properties *)

(** ** Strings: slices and suffixes *)

Section StringFacts.

Lemma app_String (c : ascii) (p t : string) :
  String c p +:+ t = String c (p +:+ t).
Proof. reflexivity. Qed.

Lemma app_empty_r (s : string) : s +:+ EmptyString = s.
Proof. induction s as [|c s IH]; [done|]. by rewrite app_String, IH. Qed.

Lemma len_app (p t : string) :
  GoString.len (p +:+ t) = GoString.len p + GoString.len t.
Proof.
  unfold GoString.len. induction p as [|c p IH]; simpl; [done|].
  by rewrite IH.
Qed.

Lemma substring_whole (s : string) :
  String.substring 0 (String.length s) s = s.
Proof. induction s as [|c s IH]; simpl; [done|]. by rewrite IH. Qed.

Lemma substring_skip_prefix (p t : string) :
  String.substring (String.length p) (String.length t) (p +:+ t) = t.
Proof.
  induction p as [|c p IH]; simpl; [apply substring_whole | exact IH].
Qed.

Lemma substring_take_prefix (p t : string) :
  String.substring 0 (String.length p) (p +:+ t) = p.
Proof.
  induction p as [|c p IH]; simpl.
  - by destruct t.
  - by rewrite IH.
Qed.

(** A string is its first [n] bytes followed by the rest. *)
Lemma substring_split (s : string) (n : nat) :
  n <= String.length s ->
  s = String.substring 0 n s +:+ String.substring n (String.length s - n) s.
Proof.
  revert n. induction s as [|c s IH]; intros n Hn; simpl in *.
  - assert (n = 0) as -> by lia. done.
  - destruct n as [|n]; simpl.
    + by rewrite substring_whole.
    + rewrite app_String. f_equal. apply IH. lia.
Qed.

Lemma slice_to_Some (s : string) (n : nat) :
  n <= GoString.len s ->
  GoString.slice_to s n = Some (String.substring 0 n s).
Proof.
  intros Hn. unfold GoString.slice_to, GoString.slice. simpl.
  destruct (Nat.leb_spec n (GoString.len s)); [|lia].
  by rewrite Nat.sub_0_r.
Qed.

Lemma slice_to_None (s : string) (n : nat) :
  GoString.len s < n -> GoString.slice_to s n = None.
Proof.
  intros Hn. unfold GoString.slice_to, GoString.slice. simpl.
  destruct (Nat.leb_spec n (GoString.len s)); [lia|done].
Qed.

Lemma HasSuffix_iff (s suffix : string) :
  GoString.HasSuffix s suffix = true <-> exists p, s = p +:+ suffix.
Proof.
  unfold GoString.HasSuffix, GoString.slice_from, GoString.slice, GoString.len.
  split.
  - intros [Hle Hs]%andb_prop. apply Nat.leb_le in Hle.
    set (k := String.length s - String.length suffix) in *.
    assert (k <= String.length s) as Hk by (unfold k; lia).
    destruct (Nat.leb_spec k (String.length s)) as [_|]; [|lia].
    rewrite Nat.leb_refl in Hs. simpl in Hs. apply String.eqb_eq in Hs.
    exists (String.substring 0 k s).
    rewrite <- Hs. by apply substring_split.
  - intros [p ->].
    pose proof (len_app p suffix) as Hl. unfold GoString.len in Hl.
    rewrite Hl.
    replace (String.length p + String.length suffix - String.length suffix)
      with (String.length p) by lia.
    destruct (Nat.leb_spec (String.length suffix)
                (String.length p + String.length suffix)); [|lia].
    destruct (Nat.leb_spec (String.length p)
                (String.length p + String.length suffix)); [|lia].
    rewrite Nat.leb_refl. simpl.
    replace (String.length p + String.length suffix - String.length p)
      with (String.length suffix) by lia.
    by rewrite substring_skip_prefix, String.eqb_refl.
Qed.

(** [isSubdomain] decides: equal, or ending with a dot and the domain. *)
Lemma isSubdomain_iff (x y : string) :
  isSubdomain x y = true <-> x = y \/ exists p, x = p +:+ "." +:+ y.
Proof.
  unfold isSubdomain. rewrite orb_true_iff, String.eqb_eq, HasSuffix_iff.
  done.
Qed.

End StringFacts.

(** ** Hardware addresses *)

Section MacFacts.

Lemma parseHexByte_hexByte (b : byte) : parseHexByte (Net.hexByte b) = Some b.
Proof. destruct b; reflexivity. Qed.

Lemma hexByte_inj (b1 b2 : byte) : Net.hexByte b1 = Net.hexByte b2 -> b1 = b2.
Proof.
  intros E. apply (f_equal parseHexByte) in E.
  rewrite !parseHexByte_hexByte in E. congruence.
Qed.

Lemma To4_nil_or_4 (ip : Net.IP) :
  Net.To4 ip = [] \/ length (Net.To4 ip) = 4.
Proof.
  unfold Net.To4.
  destruct (Nat.eqb_spec (length ip) Net.IPv4len) as [E4|_]; [by right|].
  destruct (Nat.eqb_spec (length ip) Net.IPv6len) as [E16|_]; simpl; [|by left].
  destruct (_ && _ && _); [right|by left].
  rewrite length_take, length_drop, E16. reflexivity.
Qed.

Lemma makeMac_octets (ip : Net.IP) (a b c d : byte) :
  Net.To4 ip = [a; b; c; d] ->
  makeMac ip = Net.HardwareAddr_String [x7a; x42; a; b; c; d].
Proof. intros E. unfold makeMac. rewrite E. reflexivity. Qed.

Lemma hexByte_sep_inj (x y : byte) (s t : string) :
  Net.hexByte x +:+ ":" +:+ s = Net.hexByte y +:+ ":" +:+ t -> x = y /\ s = t.
Proof.
  intros E. unfold Net.hexByte in E. cbv [String.append] in E.
  injection E as E1 E2 E3. split; [|done].
  apply hexByte_inj. unfold Net.hexByte. by rewrite E1, E2.
Qed.

Lemma mac_octets_inj (a b c d a' b' c' d' : byte) :
  Net.HardwareAddr_String [x7a; x42; a; b; c; d] =
  Net.HardwareAddr_String [x7a; x42; a'; b'; c'; d'] ->
  [a; b; c; d] = [a'; b'; c'; d'].
Proof.
  intros E. cbn [Net.HardwareAddr_String] in E.
  apply hexByte_sep_inj in E as [_ E].
  apply hexByte_sep_inj in E as [_ E].
  apply hexByte_sep_inj in E as [-> E].
  apply hexByte_sep_inj in E as [-> E].
  apply hexByte_sep_inj in E as [-> E].
  apply hexByte_inj in E as ->. done.
Qed.

End MacFacts.

(** ** Traces *)

Section TraceFacts.

Lemma replies_app (t1 t2 : list event) :
  replies (t1 ++ t2) = replies t1 ++ replies t2.
Proof. apply omap_app. Qed.

Lemma calls_app (t1 t2 : list event) :
  calls (t1 ++ t2) = calls t1 ++ calls t2.
Proof. apply omap_app. Qed.

Lemma logged_app (t1 t2 : list event) :
  logged (t1 ++ t2) = logged t1 ++ logged t2.
Proof. apply omap_app. Qed.

End TraceFacts.

(** Unfolds a handler applied to a state down to the collaborators' answers
    and the tests on strings, which are left for case analysis. *)
Ltac mrun :=
  cbv [createNetwork deleteNetwork createEndpoint deleteEndpoint
       joinEndpoint leaveEndpoint ContainerStart ContainerDied handleEvent
       sendError errorResponsef objectResponse emptyResponse
       WatchNetwork UnwatchNetwork setNetworks setNetwork
       logf respond emit raise getDriver setDriver external sliced
       mbind M_bind mret M_ret run];
  cbn [drv world trace network nameserver version watcher_ networks negb].

(** Normalises the projections of a trace built by appending events. *)
Ltac trace_simpl :=
  rewrite ?replies_app, ?calls_app, ?logged_app;
  cbn [replies calls logged omap list_omap];
  rewrite ?app_nil_r, <- ?app_assoc;
  cbn [app].

(** ** CreateNetwork and DeleteNetwork *)

Section NetworkLifecycle.
Context {W : Type} `{!Dockerer W} `{!Netlink W}.

(** A create request while the stored id is not empty. *)
Lemma createNetwork_occupied (create : Api.CreateNetworkRequest) (s : sys W) :
  network (drv s) <> EmptyString ->
  exists s',
    createNetwork (Decoded create) s = (Done tt, s') /\
    drv s' = drv s /\ world s' = world s /\
    calls (trace s') = calls (trace s) /\
    replies (trace s') = replies (trace s) ++ [alreadyMade (network (drv s))].
Proof.
  intros Hne. eexists. mrun.
  destruct (String.eqb_spec (network (drv s)) EmptyString) as [E|_]; [done|].
  cbn [negb]. split; [reflexivity|]. cbn [drv world trace].
  repeat split; trace_simpl; try done.
  unfold alreadyMade. do 3 f_equal. cbn [Sprintf].
  by rewrite app_empty_r.
Qed.

(** A create request while the stored id is empty. *)
Lemma createNetwork_vacant (create : Api.CreateNetworkRequest) (s : sys W) :
  network (drv s) = EmptyString ->
  exists s',
    createNetwork (Decoded create) s = (Done tt, s') /\
    network (drv s') = Api.cn_NetworkID create /\
    networks (watcher_ (drv s')) =
      <[Api.cn_NetworkID create := true]> (networks (watcher_ (drv s))) /\
    nameserver (drv s') = nameserver (drv s) /\
    version (drv s') = version (drv s) /\
    world s' = world s /\
    calls (trace s') = calls (trace s) /\
    replies (trace s') = replies (trace s) ++ [Json PEmpty].
Proof.
  intros Hemp. eexists. mrun.
  destruct (String.eqb_spec (network (drv s)) EmptyString) as [_|E]; [|done].
  cbn [negb]. split; [reflexivity|]. cbn [drv world trace network watcher_
    networks nameserver version].
  repeat split; by trace_simpl.
Qed.

(** A delete request for an id other than the stored one. *)
Lemma deleteNetwork_mismatch (del : Api.DeleteNetworkRequest) (s : sys W) :
  Api.dn_NetworkID del <> network (drv s) ->
  exists s',
    deleteNetwork (Decoded del) s = (Done tt, s') /\
    drv s' = drv s /\ world s' = world s /\
    calls (trace s') = calls (trace s) /\
    replies (trace s') = replies (trace s) ++ [notFound (Api.dn_NetworkID del)].
Proof.
  intros Hne. eexists. mrun.
  destruct (String.eqb_spec (Api.dn_NetworkID del) (network (drv s)))
    as [E|_]; [done|].
  cbn [negb]. split; [reflexivity|]. cbn [drv world trace].
  repeat split; trace_simpl; try done.
Qed.

(** A delete request for the stored id. *)
Lemma deleteNetwork_match (del : Api.DeleteNetworkRequest) (s : sys W) :
  Api.dn_NetworkID del = network (drv s) ->
  exists s',
    deleteNetwork (Decoded del) s = (Done tt, s') /\
    network (drv s') = EmptyString /\
    networks (watcher_ (drv s')) =
      delete (Api.dn_NetworkID del) (networks (watcher_ (drv s))) /\
    nameserver (drv s') = nameserver (drv s) /\
    version (drv s') = version (drv s) /\
    world s' = world s /\
    calls (trace s') = calls (trace s) /\
    replies (trace s') = replies (trace s) ++ [Json PEmpty].
Proof.
  intros Heq. eexists. mrun.
  destruct (String.eqb_spec (Api.dn_NetworkID del) (network (drv s)))
    as [_|E]; [|done].
  cbn [negb]. split; [reflexivity|]. cbn [drv world trace network watcher_
    networks nameserver version].
  repeat split; by trace_simpl.
Qed.

Lemma serveAll_cons (h : M W unit) (rest : list (M W unit)) (s : sys W) :
  serveAll (h :: rest) s =
  match h s with
  | (Done _, s') => serveAll rest s'
  | (Panicked p, s') => (Panicked p, s')
  end.
Proof. reflexivity. Qed.

(** While a network with a nonempty id is stored, every create request of
    a sequence is rejected and the driver stays as it is. *)
Lemma createRequests_rejected (ids : list string) (s : sys W) :
  network (drv s) <> EmptyString ->
  exists s',
    serveAll (createRequests ids) s = (Done tt, s') /\
    drv s' = drv s /\ world s' = world s /\
    replies (trace s') =
      replies (trace s) ++ map (fun _ => alreadyMade (network (drv s))) ids.
Proof.
  revert s. induction ids as [|id ids IH]; intros s Hne.
  - exists s. cbn. by rewrite app_nil_r.
  - destruct (createNetwork_occupied (Api.mkCreateNetwork id) s Hne)
      as (s1 & Hrun & Hd & Hw & _ & Hr).
    destruct (IH s1) as (s2 & Hrun2 & Hd2 & Hw2 & Hr2); [by rewrite Hd|].
    exists s2. unfold createRequests in *. cbn [map].
    rewrite serveAll_cons, Hrun. split; [exact Hrun2|].
    rewrite Hd2, Hw2, Hr2, Hd, Hw, Hr, <- app_assoc. done.
Qed.

End NetworkLifecycle.

Section NetworkClaims.
Context {W : Type} `{!Dockerer W} `{!Netlink W}.

Lemma serveAll_step (h : M W unit) (rest : list (M W unit)) (s s1 : sys W) :
  h s = (Done tt, s1) -> serveAll (h :: rest) s = serveAll rest s1.
Proof. intros Hrun. by rewrite serveAll_cons, Hrun. Qed.

Lemma serveAll_app (hs1 hs2 : list (M W unit)) (s s1 : sys W) :
  serveAll hs1 s = (Done tt, s1) ->
  serveAll (hs1 ++ hs2) s = serveAll hs2 s1.
Proof.
  revert s. induction hs1 as [|h hs1 IH]; intros s Hrun.
  - cbn in Hrun. by injection Hrun as ->.
  - cbn [app]. rewrite serveAll_cons in *.
    destruct (h s) as [[[]|p] s0]; [by apply IH|done].
Qed.

(** Claim C1, as amended.  A create request is rejected exactly while the
    stored network id is not empty: it then answers "already made", naming
    the stored id, and leaves the stored id and the watched set alone;
    otherwise it stores the requested id, puts it in the watched set and
    answers with the empty payload.  Hence, in a sequence of create requests
    that starts with a nonempty id on a driver without a network, only the
    first is accepted, until a delete request for that id, after which a
    create request is accepted again. *)
Theorem createNetwork_one_network :
  (forall (create : Api.CreateNetworkRequest) (s : sys W),
      network (drv s) <> EmptyString ->
      exists s',
        createNetwork (Decoded create) s = (Done tt, s') /\
        replies (trace s') = replies (trace s) ++ [alreadyMade (network (drv s))] /\
        network (drv s') = network (drv s) /\
        networks (watcher_ (drv s')) = networks (watcher_ (drv s))) /\
  (forall (create : Api.CreateNetworkRequest) (s : sys W),
      network (drv s) = EmptyString ->
      exists s',
        createNetwork (Decoded create) s = (Done tt, s') /\
        replies (trace s') = replies (trace s) ++ [Json PEmpty] /\
        network (drv s') = Api.cn_NetworkID create /\
        networks (watcher_ (drv s')) =
          <[Api.cn_NetworkID create := true]> (networks (watcher_ (drv s)))) /\
  (forall (id : string) (ids : list string) (next : string) (s : sys W),
      network (drv s) = EmptyString ->
      id <> EmptyString ->
      exists s',
        serveAll (createRequests (id :: ids) ++
                  [deleteNetwork (Decoded (Api.mkDeleteNetwork id));
                   createNetwork (Decoded (Api.mkCreateNetwork next))]) s
          = (Done tt, s') /\
        replies (trace s') =
          replies (trace s) ++
          Json PEmpty :: map (fun _ => alreadyMade id) ids ++
          [Json PEmpty; Json PEmpty] /\
        network (drv s') = next).
Proof.
  split; [|split].
  - intros create s Hne.
    destruct (createNetwork_occupied create s Hne) as (s' & Hrun & Hd & _ & _ & Hr).
    exists s'. by rewrite Hd.
  - intros create s Hemp.
    destruct (createNetwork_vacant create s Hemp)
      as (s' & Hrun & Hn & Hw & _ & _ & _ & _ & Hr).
    by exists s'.
  - intros id ids next s Hemp Hid.
    destruct (createNetwork_vacant (Api.mkCreateNetwork id) s Hemp)
      as (s1 & Hrun1 & Hn1 & _ & _ & _ & _ & _ & Hr1).
    cbn [Api.cn_NetworkID] in Hn1.
    destruct (createRequests_rejected ids s1) as (s2 & Hrun2 & Hd2 & _ & Hr2);
      [by rewrite Hn1|].
    destruct (deleteNetwork_match (Api.mkDeleteNetwork id) s2)
      as (s3 & Hrun3 & Hn3 & _ & _ & _ & _ & _ & Hr3);
      [by rewrite Hd2, Hn1|].
    destruct (createNetwork_vacant (Api.mkCreateNetwork next) s3 Hn3)
      as (s4 & Hrun4 & Hn4 & _ & _ & _ & _ & _ & Hr4).
    exists s4. split; [|split; [|exact Hn4]].
    + rewrite (serveAll_app _ _ s s2).
      * by rewrite (serveAll_step _ _ _ _ Hrun3), (serveAll_step _ _ _ _ Hrun4).
      * unfold createRequests in *. cbn [map].
        by rewrite (serveAll_step _ _ _ _ Hrun1).
    + rewrite Hr4, Hr3, Hr2, Hr1, Hn1, <- !app_assoc. reflexivity.
Qed.

(** Claim C2, as amended.  A delete request whose id differs from the stored
    network id (the empty string while there is no network) answers "not
    found" and leaves the stored id and the watched set alone; a request
    whose id equals the stored id clears the stored id, removes the id from
    the watched set and answers with the empty payload. *)
Theorem deleteNetwork_matching_only :
  (forall (del : Api.DeleteNetworkRequest) (s : sys W),
      Api.dn_NetworkID del <> network (drv s) ->
      exists s',
        deleteNetwork (Decoded del) s = (Done tt, s') /\
        replies (trace s') = replies (trace s) ++ [notFound (Api.dn_NetworkID del)] /\
        network (drv s') = network (drv s) /\
        networks (watcher_ (drv s')) = networks (watcher_ (drv s))) /\
  (forall (del : Api.DeleteNetworkRequest) (s : sys W),
      Api.dn_NetworkID del = network (drv s) ->
      exists s',
        deleteNetwork (Decoded del) s = (Done tt, s') /\
        replies (trace s') = replies (trace s) ++ [Json PEmpty] /\
        network (drv s') = EmptyString /\
        networks (watcher_ (drv s')) =
          delete (Api.dn_NetworkID del) (networks (watcher_ (drv s)))).
Proof.
  split.
  - intros del s Hne.
    destruct (deleteNetwork_mismatch del s Hne) as (s' & Hrun & Hd & _ & _ & Hr).
    exists s'. by rewrite Hd.
  - intros del s Heq.
    destruct (deleteNetwork_match del s Heq)
      as (s' & Hrun & Hn & Hw & _ & _ & _ & _ & Hr).
    by exists s'.
Qed.

(** Claim C9.  No network is the empty network id.  On a driver without a
    network a create request with the empty id is accepted and leaves the
    driver without a network, so that a following create request with a
    nonempty id is accepted too; a delete request with the empty id is
    accepted whenever there is no network; and a stored nonempty id blocks
    every create request. *)
Theorem empty_id_means_no_network :
  (forall v : string, network (New v) = EmptyString) /\
  (forall (id : string) (s : sys W),
      network (drv s) = EmptyString ->
      id <> EmptyString ->
      exists s1 s2,
        createNetwork (Decoded (Api.mkCreateNetwork EmptyString)) s = (Done tt, s1) /\
        replies (trace s1) = replies (trace s) ++ [Json PEmpty] /\
        network (drv s1) = EmptyString /\
        createNetwork (Decoded (Api.mkCreateNetwork id)) s1 = (Done tt, s2) /\
        replies (trace s2) = replies (trace s1) ++ [Json PEmpty] /\
        network (drv s2) = id) /\
  (forall s : sys W,
      network (drv s) = EmptyString ->
      exists s',
        deleteNetwork (Decoded (Api.mkDeleteNetwork EmptyString)) s = (Done tt, s') /\
        replies (trace s') = replies (trace s) ++ [Json PEmpty] /\
        network (drv s') = EmptyString) /\
  (forall (create : Api.CreateNetworkRequest) (s : sys W),
      network (drv s) <> EmptyString ->
      exists s',
        createNetwork (Decoded create) s = (Done tt, s') /\
        replies (trace s') = replies (trace s) ++ [alreadyMade (network (drv s))] /\
        drv s' = drv s).
Proof.
  split; [done|split; [|split]].
  - intros id s Hemp Hid.
    destruct (createNetwork_vacant (Api.mkCreateNetwork EmptyString) s Hemp)
      as (s1 & Hrun1 & Hn1 & _ & _ & _ & _ & _ & Hr1).
    cbn [Api.cn_NetworkID] in Hn1.
    destruct (createNetwork_vacant (Api.mkCreateNetwork id) s1 Hn1)
      as (s2 & Hrun2 & Hn2 & _ & _ & _ & _ & _ & Hr2).
    by exists s1, s2.
  - intros s Hemp.
    destruct (deleteNetwork_match (Api.mkDeleteNetwork EmptyString) s)
      as (s' & Hrun & Hn & _ & _ & _ & _ & _ & Hr); [by rewrite Hemp|].
    by exists s'.
  - intros create s Hne.
    destruct (createNetwork_occupied create s Hne) as (s' & Hrun & Hd & _ & _ & Hr).
    by exists s'.
Qed.

End NetworkClaims.

(** ** Endpoints *)

Section EndpointFacts.
Context {W : Type} `{!Dockerer W} `{!Netlink W}.

(** DeleteEndpoint answers before it releases the address, and whatever the
    release returns; an error of the release only adds a warning to the log. *)
Lemma deleteEndpoint_acknowledges (del : Api.DeleteEndpointRequest) (s : sys W) :
  exists s',
    deleteEndpoint (Decoded del) s = (Done tt, s') /\
    drv s' = drv s /\
    world s' = snd (releaseIP (Api.de_EndpointID del) (world s)) /\
    calls (trace s') = calls (trace s) ++ [CReleaseIP (Api.de_EndpointID del)] /\
    replies (trace s') = replies (trace s) ++ [Json PEmpty] /\
    logged (trace s') =
      logged (trace s) ++
      (Debug, "Delete endpoint request: %+v") ::
      match fst (releaseIP (Api.de_EndpointID del) (world s)) with
      | Some _ => [(Warning, "error releasing IP: %s")]
      | None => []
      end ++ [(Info, "Delete endpoint %s")].
Proof.
  mrun. destruct (releaseIP _ _) as [[err|] w']; cbn [drv world trace fst snd];
    eexists; (split; [reflexivity|]); cbn [drv world trace];
    repeat split; by trace_simpl.
Qed.

(** Leave, for an endpoint id of at least 5 bytes, answers with the empty
    payload whatever the deletion of the device returns; an error of the
    deletion only adds a warning to the log. *)
Lemma leaveEndpoint_acknowledges (l : Api.LeaveRequest) (s : sys W) :
  5 <= GoString.len (Api.l_EndpointID l) ->
  let local := vethPair (String.substring 0 5 (Api.l_EndpointID l)) in
  exists s',
    leaveEndpoint (Decoded l) s = (Done tt, s') /\
    drv s' = drv s /\
    world s' = snd (LinkDel local (world s)) /\
    calls (trace s') = calls (trace s) ++ [CLinkDel local] /\
    replies (trace s') = replies (trace s) ++ [Json PEmpty] /\
    logged (trace s') =
      logged (trace s) ++
      (Debug, "Leave request: %+v") ::
      match fst (LinkDel local (world s)) with
      | Some _ => [(Warning, "unable to delete veth on leave: %s")]
      | None => []
      end ++ [(Info, "Leave %s:%s")].
Proof.
  intros Hlen local. mrun. rewrite (slice_to_Some _ _ Hlen).
  fold local. cbn [drv world trace].
  destruct (LinkDel _ _) as [[err|] w']; cbn [drv world trace fst snd];
    eexists; (split; [reflexivity|]); cbn [drv world trace];
    repeat split; by trace_simpl.
Qed.

(** CreateEndpoint on the stored network: one call to the allocator; the
    lease and the hardware address derived from it are returned, or the
    internal error when the allocator fails. *)
Lemma createEndpoint_leases (create : Api.CreateEndpointRequest) (s : sys W) :
  Api.ce_NetworkID create = network (drv s) ->
  exists s',
    createEndpoint (Decoded create) s = (Done tt, s') /\
    drv s' = drv s /\
    world s' = snd (allocateIP (Api.ce_EndpointID create) (world s)) /\
    calls (trace s') = calls (trace s) ++ [CAllocateIP (Api.ce_EndpointID create)] /\
    replies (trace s') =
      replies (trace s) ++
      [match fst (allocateIP (Api.ce_EndpointID create) (world s)) with
       | Ok ip =>
           Json (PCreateEndpoint
                   (Api.mkCreateEndpointResponse
                      (Api.mkEndpointInterface (IPNet_String ip) (makeMac (IP ip)))))
       | Err _ => HttpError StatusInternalServerError "Unable to allocate IP"
       end].
Proof.
  intros Heq. mrun.
  destruct (String.eqb_spec (Api.ce_NetworkID create) (network (drv s)))
    as [_|E]; [|done].
  cbn [negb drv world trace].
  destruct (allocateIP _ _) as [[ip|err] w']; cbn [drv world trace fst snd];
    eexists; (split; [reflexivity|]); cbn [drv world trace];
    repeat split; by trace_simpl.
Qed.

(** Leave, for a shorter endpoint id, panics at the slice: nothing is
    written to the response and no device is deleted. *)
Lemma leaveEndpoint_short_id (l : Api.LeaveRequest) (s : sys W) :
  GoString.len (Api.l_EndpointID l) < 5 ->
  exists s',
    leaveEndpoint (Decoded l) s = (Panicked SliceBoundsOutOfRange, s') /\
    drv s' = drv s /\ world s' = world s /\
    calls (trace s') = calls (trace s) /\
    replies (trace s') = replies (trace s).
Proof.
  intros Hlen. mrun. rewrite (slice_to_None _ _ Hlen).
  eexists. split; [reflexivity|]. cbn [drv world trace].
  repeat split; by trace_simpl.
Qed.

(** Join, for a shorter endpoint id, panics at the slice as well. *)
Lemma joinEndpoint_short_id (j : Api.JoinRequest) (s : sys W) :
  GoString.len (Api.j_EndpointID j) < 5 ->
  exists s',
    joinEndpoint (Decoded j) s = (Panicked SliceBoundsOutOfRange, s') /\
    drv s' = drv s /\ world s' = world s /\
    calls (trace s') = calls (trace s) /\
    replies (trace s') = replies (trace s).
Proof.
  intros Hlen. mrun. rewrite (slice_to_None _ _ Hlen).
  eexists. split; [reflexivity|]. cbn [drv world trace].
  repeat split; by trace_simpl.
Qed.

(** Join, for an endpoint id of at least 5 bytes, returns; its first call
    creates the pair named after the first 5 bytes, every later netlink call
    is about that pair, and a successful answer names its peer end. *)
Lemma joinEndpoint_creates_pair (j : Api.JoinRequest) (s : sys W) :
  5 <= GoString.len (Api.j_EndpointID j) ->
  let local := vethPair (String.substring 0 5 (Api.j_EndpointID j)) in
  exists s' rest,
    joinEndpoint (Decoded j) s = (Done tt, s') /\
    calls (trace s') = calls (trace s) ++ CLinkAdd local :: rest /\
    Forall (fun v => v = local) (omap callVeth rest) /\
    (forall resp : Api.JoinResponse,
        replies (trace s') = replies (trace s) ++ [Json (PJoin resp)] ->
        Api.SrcName (Api.InterfaceName_ resp) = PeerName local).
Proof.
  intros Hlen local. mrun. rewrite (slice_to_Some _ _ Hlen).
  fold local. cbn [drv world trace].
  assert (forall (msg : string) (resp : Api.JoinResponse),
             replies (trace s) ++ [Json (PErr msg)] =
             replies (trace s) ++ [Json (PJoin resp)] ->
             Api.SrcName (Api.InterfaceName_ resp) = PeerName local) as Hfail.
  { intros msg resp E. apply app_inv_head in E. discriminate E. }
  destruct (LinkAdd _ _) as [[err|] w1]; cbn [drv world trace].
  { do 2 eexists. split; [reflexivity|]. cbn [trace].
    split; [by trace_simpl|]. split; [by constructor|].
    trace_simpl. apply Hfail. }
  destruct (LinkByName _ _) as [[[bridge|v|kind name]|err] w2]; cbn [drv world trace].
  2-4: do 2 eexists; (split; [reflexivity|]); cbn [trace];
       (split; [by trace_simpl|]); (split; [by repeat constructor|]);
       trace_simpl; apply Hfail.
  destruct (LinkSetMaster _ _ _) as [[err|] w3]; cbn [drv world trace].
  { do 2 eexists. split; [reflexivity|]. cbn [trace].
    split; [by trace_simpl|]. split; [by repeat constructor|].
    trace_simpl. apply Hfail. }
  destruct (LinkSetUp _ _) as [[err|] w4]; cbn [drv world trace].
  { do 2 eexists. split; [reflexivity|]. cbn [trace].
    split; [by trace_simpl|]. split; [by repeat constructor|].
    trace_simpl. apply Hfail. }
  do 2 eexists. split; [reflexivity|]. cbn [trace].
  split; [by trace_simpl|]. split; [by repeat constructor|].
  trace_simpl. intros resp E. apply app_inv_head in E.
  by injection E as <-.
Qed.

End EndpointFacts.

Section EndpointClaims.
Context {W : Type} `{!Dockerer W} `{!Netlink W}.


(** Claim C5.  For endpoint ids of at least 5 bytes that agree on their
    first 5 bytes (the same id in particular), Join creates and Leave deletes
    the same device pair, whose two names are the fixed prefixes followed by
    those 5 bytes; every netlink call of Join is about that pair and a
    successful Join answers with its peer name. *)
Theorem join_leave_same_pair
    (j : Api.JoinRequest) (l : Api.LeaveRequest) (sj sl : sys W) :
  5 <= GoString.len (Api.j_EndpointID j) ->
  5 <= GoString.len (Api.l_EndpointID l) ->
  String.substring 0 5 (Api.l_EndpointID l) =
    String.substring 0 5 (Api.j_EndpointID j) ->
  exists (local : Veth) (sj' sl' : sys W) (rest : list call),
    Name local = "vethwl" +:+ String.substring 0 5 (Api.j_EndpointID j) /\
    PeerName local = "vethwg" +:+ String.substring 0 5 (Api.j_EndpointID j) /\
    joinEndpoint (Decoded j) sj = (Done tt, sj') /\
    calls (trace sj') = calls (trace sj) ++ CLinkAdd local :: rest /\
    Forall (fun v => v = local) (omap callVeth rest) /\
    (forall resp : Api.JoinResponse,
        replies (trace sj') = replies (trace sj) ++ [Json (PJoin resp)] ->
        Api.SrcName (Api.InterfaceName_ resp) = PeerName local) /\
    leaveEndpoint (Decoded l) sl = (Done tt, sl') /\
    calls (trace sl') = calls (trace sl) ++ [CLinkDel local].
Proof.
  intros Hj Hl Hpre.
  destruct (joinEndpoint_creates_pair j sj Hj)
    as (sj' & rest & Hrunj & Hcj & Hrest & Hresp).
  destruct (leaveEndpoint_acknowledges l sl Hl) as (sl' & Hrunl & _ & _ & Hcl & _ & _).
  rewrite Hpre in Hcl.
  exists (vethPair (String.substring 0 5 (Api.j_EndpointID j))), sj', sl', rest.
  done.
Qed.

(** Claim C10, what the code does.  For an endpoint id shorter than 5 bytes
    the slice in Join and in Leave is out of bounds: the handler panics, with
    no response written and no call made. *)
Theorem short_endpoint_id_panics
    (j : Api.JoinRequest) (l : Api.LeaveRequest) (s : sys W) :
  GoString.len (Api.j_EndpointID j) < 5 ->
  GoString.len (Api.l_EndpointID l) < 5 ->
  (exists s',
     joinEndpoint (Decoded j) s = (Panicked SliceBoundsOutOfRange, s') /\
     replies (trace s') = replies (trace s) /\
     calls (trace s') = calls (trace s)) /\
  (exists s',
     leaveEndpoint (Decoded l) s = (Panicked SliceBoundsOutOfRange, s') /\
     replies (trace s') = replies (trace s) /\
     calls (trace s') = calls (trace s)).
Proof.
  intros Hj Hl. split.
  - destruct (joinEndpoint_short_id j s Hj) as (s' & Hrun & _ & _ & Hc & Hr).
    by exists s'.
  - destruct (leaveEndpoint_short_id l s Hl) as (s' & Hrun & _ & _ & Hc & Hr).
    by exists s'.
Qed.

End EndpointClaims.

(** Claim C6, what the code does.  A Leave request with the 3-byte endpoint
    id abc, served while the device layer fails, ends in a panic before any
    response is written; the DeleteEndpoint request for the same id is
    acknowledged although the release fails. *)
Theorem leaveEndpoint_short_id_no_response :
  run (leaveEndpoint (Decoded (Api.mkLeave "net1" "abc"))) (New "1.0") badWorld =
    (Panicked SliceBoundsOutOfRange,
     mkSys (New "1.0") badWorld
       [ELog Debug "Leave request: %+v" [LVal ["net1"; "abc"]]]) /\
  replies (trace (snd
    (run (leaveEndpoint (Decoded (Api.mkLeave "net1" "abc"))) (New "1.0") badWorld)))
    = [] /\
  replies (trace (snd
    (run (deleteEndpoint (Decoded (Api.mkDeleteEndpoint "net1" "abc")))
       (New "1.0") badWorld)))
    = [Json PEmpty].
Proof. repeat split; reflexivity. Qed.

(** ** The watcher *)

Section WatcherClaims.
Context {W : Type} `{!Dockerer W} `{!Netlink W}.




(** An event that is neither a start nor a die is skipped. *)
Lemma handleEvent_other_status (event : Docker.APIEvents) (s : sys W) :
  Docker.Status event <> "start" ->
  Docker.Status event <> "die" ->
  handleEvent event s = (Done tt, s).
Proof.
  intros Hns Hnd. mrun.
  destruct (String.eqb_spec (Docker.Status event) "start") as [|_]; [done|].
  by destruct (String.eqb_spec (Docker.Status event) "die") as [|_].
Qed.


(** Events with other statuses pass through the loop without any effect. *)
Lemma eventLoop_ignores (events : list Docker.APIEvents) (s : sys W) :
  Forall (fun event => Docker.Status event <> "start" /\
                       Docker.Status event <> "die") events ->
  eventLoop events s = (Done tt, s).
Proof.
  induction 1 as [|event events [Hns Hnd] _ IH]; [done|].
  cbn [eventLoop]. unfold mbind, M_bind.
  by rewrite (handleEvent_other_status _ _ Hns Hnd).
Qed.

End WatcherClaims.

(** ** The pure helpers *)

(** Claim C8.  [isSubdomain x y] holds exactly when [x] is [y] or ends with
    a dot followed by [y]; the four sample domains are classified as stated. *)
Theorem isSubdomain_correct :
  (forall x y : string,
      isSubdomain x y = true <-> x = y \/ exists p, x = p +:+ "." +:+ y) /\
  isSubdomain "weave.local" "weave.local" = true /\
  isSubdomain "foo.weave.local" "weave.local" = true /\
  isSubdomain "notweave.local" "weave.local" = false /\
  isSubdomain "weave.local2" "weave.local" = false.
Proof. split; [exact isSubdomain_iff|]. repeat split; reflexivity. Qed.

(** Claim C4.  For an IPv4 address, in 4-byte or in IPv4-mapped 16-byte
    form, [makeMac] prints the bytes 7a, 42 and the four octets; 10.0.0.1
    gives 7a:42:0a:00:00:01; addresses with the same octets give the same
    hardware address and addresses that differ in an octet give different
    ones. *)
Theorem makeMac_correct :
  (forall (ip : Net.IP) (a b c d : byte),
      Net.To4 ip = [a; b; c; d] ->
      makeMac ip = Net.HardwareAddr_String [x7a; x42; a; b; c; d]) /\
  makeMac [x0a; x00; x00; x01] = "7a:42:0a:00:00:01" /\
  (forall ip1 ip2 : Net.IP,
      Net.To4 ip1 = Net.To4 ip2 -> makeMac ip1 = makeMac ip2) /\
  (forall ip1 ip2 : Net.IP,
      length (Net.To4 ip1) = 4 ->
      length (Net.To4 ip2) = 4 ->
      Net.To4 ip1 <> Net.To4 ip2 ->
      makeMac ip1 <> makeMac ip2).
Proof.
  split; [exact makeMac_octets|]. split; [reflexivity|]. split.
  - intros ip1 ip2 E. unfold makeMac. by rewrite E.
  - intros ip1 ip2 H1 H2 Hne Hmac. apply Hne.
    destruct (Net.To4 ip1) as [|a [|b [|c [|d [|]]]]] eqn:E1; try discriminate.
    destruct (Net.To4 ip2) as [|a' [|b' [|c' [|d' [|]]]]] eqn:E2; try discriminate.
    rewrite (makeMac_octets _ _ _ _ _ E1), (makeMac_octets _ _ _ _ _ E2) in Hmac.
    by apply mac_octets_inj.
Qed.

(** ** The claims at concrete inputs *)

(** C1 as stated fails: after a create request with the empty id a second
    create request is accepted as well. *)
Lemma createNetwork_second_accepted :
  run (serveAll (createRequests [EmptyString; "net1"])) (New "1.0") goodWorld =
    (Done tt,
     mkSys (mkDriver "1.0" "net1" EmptyString
              (mkWatcher (<["net1" := true]> {[ EmptyString := true ]})))
       goodWorld
       [ELog Debug "Create network request %+v" [LVal [EmptyString]];
        ELog Debug "Watch network %s" [LStr EmptyString];
        EReply (Json PEmpty);
        ELog Info "Create network %s" [LStr EmptyString];
        ELog Debug "Create network request %+v" [LVal ["net1"]];
        ELog Debug "Watch network %s" [LStr "net1"];
        EReply (Json PEmpty);
        ELog Info "Create network %s" [LStr "net1"]]) /\
  replies (trace (snd
    (run (serveAll (createRequests [EmptyString; "net1"])) (New "1.0") goodWorld)))
    = [Json PEmpty; Json PEmpty].
Proof. split; reflexivity. Qed.

(** C2 as stated fails: on a driver without a network, a delete request with
    the empty id is accepted. *)
Lemma deleteNetwork_accepted_without_network :
  network (New "1.0") = EmptyString /\
  run (deleteNetwork (Decoded (Api.mkDeleteNetwork EmptyString)))
    (New "1.0") goodWorld =
    (Done tt,
     mkSys (New "1.0") goodWorld
       [ELog Debug "Delete network request: %+v" [LVal [EmptyString]];
        ELog Debug "Unwatch network %s" [LStr EmptyString];
        EReply (Json PEmpty);
        ELog Info "Destroy network %s" [LStr EmptyString]]) /\
  replies (trace (snd
    (run (deleteNetwork (Decoded (Api.mkDeleteNetwork EmptyString)))
       (New "1.0") goodWorld)))
    = [Json PEmpty].
Proof. repeat split; reflexivity. Qed.

Lemma createNetwork_one_network_witness :
  (exists s',
     createNetwork (Decoded (Api.mkCreateNetwork "net2"))
       (mkSys oneNetwork goodWorld []) = (Done tt, s') /\
     replies (trace s') = [alreadyMade "net1"] /\
     network (drv s') = "net1") /\
  (exists s',
     createNetwork (Decoded (Api.mkCreateNetwork "net1"))
       (mkSys (New "1.0") goodWorld []) = (Done tt, s') /\
     replies (trace s') = [Json PEmpty] /\
     network (drv s') = "net1") /\
  (exists s',
     serveAll (createRequests ["net1"; "net2"; "net3"] ++
               [deleteNetwork (Decoded (Api.mkDeleteNetwork "net1"));
                createNetwork (Decoded (Api.mkCreateNetwork "net4"))])
       (mkSys (New "1.0") goodWorld []) = (Done tt, s') /\
     replies (trace s') =
       [Json PEmpty; alreadyMade "net1"; alreadyMade "net1";
        Json PEmpty; Json PEmpty] /\
     network (drv s') = "net4").
Proof.
  destruct (createNetwork_one_network (W := stub)) as (H1 & H2 & H3).
  split; [|split].
  - destruct (H1 (Api.mkCreateNetwork "net2") (mkSys oneNetwork goodWorld []))
      as (s' & Hrun & Hr & Hn & _); [vm_compute; discriminate|].
    exists s'. split; [exact Hrun|]. split; [exact Hr|exact Hn].
  - destruct (H2 (Api.mkCreateNetwork "net1") (mkSys (New "1.0") goodWorld []))
      as (s' & Hrun & Hr & Hn & _); [reflexivity|].
    exists s'. split; [exact Hrun|]. split; [exact Hr|exact Hn].
  - destruct (H3 "net1" ["net2"; "net3"] "net4" (mkSys (New "1.0") goodWorld []))
      as (s' & Hrun & Hr & Hn); [reflexivity|vm_compute; discriminate|].
    exists s'. split; [exact Hrun|]. split; [exact Hr|exact Hn].
Defined.

Lemma deleteNetwork_matching_only_witness :
  (exists s',
     deleteNetwork (Decoded (Api.mkDeleteNetwork "net2"))
       (mkSys oneNetwork goodWorld []) = (Done tt, s') /\
     replies (trace s') = [notFound "net2"] /\
     network (drv s') = "net1" /\
     networks (watcher_ (drv s')) = {[ "net1" := true ]}) /\
  (exists s',
     deleteNetwork (Decoded (Api.mkDeleteNetwork "net1"))
       (mkSys oneNetwork goodWorld []) = (Done tt, s') /\
     replies (trace s') = [Json PEmpty] /\
     network (drv s') = EmptyString /\
     networks (watcher_ (drv s')) = delete "net1" {[ "net1" := true ]}).
Proof.
  destruct (deleteNetwork_matching_only (W := stub)) as (H1 & H2).
  split.
  - destruct (H1 (Api.mkDeleteNetwork "net2") (mkSys oneNetwork goodWorld []))
      as (s' & Hrun & Hr & Hn & Hw); [vm_compute; discriminate|].
    exists s'. split; [exact Hrun|]. split; [exact Hr|]. split; [exact Hn|exact Hw].
  - destruct (H2 (Api.mkDeleteNetwork "net1") (mkSys oneNetwork goodWorld []))
      as (s' & Hrun & Hr & Hn & Hw); [reflexivity|].
    exists s'. split; [exact Hrun|]. split; [exact Hr|]. split; [exact Hn|exact Hw].
Defined.

Lemma empty_id_means_no_network_witness :
  (exists s1 s2,
     createNetwork (Decoded (Api.mkCreateNetwork EmptyString))
       (mkSys (New "1.0") goodWorld []) = (Done tt, s1) /\
     network (drv s1) = EmptyString /\
     createNetwork (Decoded (Api.mkCreateNetwork "net1")) s1 = (Done tt, s2) /\
     replies (trace s2) = replies (trace s1) ++ [Json PEmpty] /\
     network (drv s2) = "net1") /\
  (exists s',
     deleteNetwork (Decoded (Api.mkDeleteNetwork EmptyString))
       (mkSys (New "1.0") goodWorld []) = (Done tt, s') /\
     replies (trace s') = [Json PEmpty]) /\
  (exists s',
     createNetwork (Decoded (Api.mkCreateNetwork "net2"))
       (mkSys oneNetwork goodWorld []) = (Done tt, s') /\
     drv s' = oneNetwork).
Proof.
  destruct (empty_id_means_no_network (W := stub)) as (_ & H2 & H3 & H4).
  split; [|split].
  - destruct (H2 "net1" (mkSys (New "1.0") goodWorld []))
      as (s1 & s2 & Hrun1 & _ & Hn1 & Hrun2 & Hr2 & Hn2);
      [reflexivity|vm_compute; discriminate|].
    exists s1, s2. split; [exact Hrun1|]. split; [exact Hn1|].
    split; [exact Hrun2|]. split; [exact Hr2|exact Hn2].
  - destruct (H3 (mkSys (New "1.0") goodWorld []))
      as (s' & Hrun & Hr & _); [reflexivity|].
    exists s'. split; [exact Hrun|exact Hr].
  - destruct (H4 (Api.mkCreateNetwork "net2") (mkSys oneNetwork goodWorld []))
      as (s' & Hrun & _ & Hd); [vm_compute; discriminate|].
    exists s'. split; [exact Hrun|exact Hd].
Defined.



Lemma join_leave_same_pair_witness :
  exists (local : Veth) (sj' sl' : sys stub) (rest : list call),
    Name local = "vethwl01234" /\
    PeerName local = "vethwg01234" /\
    joinEndpoint (Decoded (Api.mkJoin "net1" "0123456789abcdef" "sandbox"))
      (mkSys oneNetwork goodWorld []) = (Done tt, sj') /\
    calls (trace sj') = CLinkAdd local :: rest /\
    Forall (fun v => v = local) (omap callVeth rest) /\
    (forall resp : Api.JoinResponse,
        replies (trace sj') = [Json (PJoin resp)] ->
        Api.SrcName (Api.InterfaceName_ resp) = PeerName local) /\
    leaveEndpoint (Decoded (Api.mkLeave "net1" "01234zzzzzzz"))
      (mkSys oneNetwork badWorld []) = (Done tt, sl') /\
    calls (trace sl') = [CLinkDel local].
Proof.
  apply (join_leave_same_pair (W := stub)
           (Api.mkJoin "net1" "0123456789abcdef" "sandbox")
           (Api.mkLeave "net1" "01234zzzzzzz")
           (mkSys oneNetwork goodWorld []) (mkSys oneNetwork badWorld []));
    [vm_compute; lia | vm_compute; lia | reflexivity].
Defined.

Lemma short_endpoint_id_panics_witness :
  (exists s',
     joinEndpoint (Decoded (Api.mkJoin "net1" "abc" "sandbox"))
       (mkSys oneNetwork goodWorld []) = (Panicked SliceBoundsOutOfRange, s') /\
     replies (trace s') = [] /\ calls (trace s') = []) /\
  (exists s',
     leaveEndpoint (Decoded (Api.mkLeave "net1" "abc"))
       (mkSys oneNetwork goodWorld []) = (Panicked SliceBoundsOutOfRange, s') /\
     replies (trace s') = [] /\ calls (trace s') = []).
Proof.
  apply (short_endpoint_id_panics (W := stub)
           (Api.mkJoin "net1" "abc" "sandbox") (Api.mkLeave "net1" "abc")
           (mkSys oneNetwork goodWorld [])); vm_compute; lia.
Defined.


Lemma makeMac_correct_witness :
  makeMac [x0a; x00; x00; x01] =
    Net.HardwareAddr_String [x7a; x42; x0a; x00; x00; x01] /\
  makeMac [x00; x00; x00; x00; x00; x00; x00; x00; x00; x00; xff; xff;
           x0a; x00; x00; x01] = makeMac [x0a; x00; x00; x01] /\
  makeMac [x0a; x00; x00; x01] <> makeMac [x0a; x00; x01; x01].
Proof.
  destruct makeMac_correct as (H1 & _ & H3 & H4).
  split; [|split].
  - apply (H1 [x0a; x00; x00; x01] x0a x00 x00 x01). reflexivity.
  - apply H3. reflexivity.
  - apply H4; [reflexivity | reflexivity | vm_compute; discriminate].
Defined.

Lemma isSubdomain_correct_witness :
  isSubdomain "a.b.weave.local" "weave.local" = true.
Proof.
  destruct isSubdomain_correct as (H & _).
  apply H. right. exists "a.b". reflexivity.
Defined.

(** * Further properties of the code *)

(** ** The pure helpers *)

Section HelperFacts.

Lemma str_app_assoc (a b c : string) : (a +:+ b) +:+ c = a +:+ (b +:+ c).
Proof.
  induction a as [|x a IH]; [done|]. by rewrite !app_String, IH.
Qed.

Lemma substring_length (s : string) (n : nat) :
  n <= String.length s -> String.length (String.substring 0 n s) = n.
Proof.
  revert n. induction s as [|c s IH]; intros [|n] Hn; simpl in *; try lia.
  rewrite IH; lia.
Qed.

Lemma isSubdomain_len (x y : string) :
  isSubdomain x y = true -> GoString.len y <= GoString.len x.
Proof.
  intros [->|[p ->]]%isSubdomain_iff; [done|].
  rewrite !len_app. lia.
Qed.

End HelperFacts.

(** Property X1.  [isSubdomain] is a partial order on domain names: every
    name is a subdomain of itself, a subdomain of a subdomain is a subdomain,
    two names that are subdomains of each other are equal; and a subdomain is
    never shorter than its domain. *)
Theorem isSubdomain_partial_order :
  (forall x : string, isSubdomain x x = true) /\
  (forall x y z : string,
      isSubdomain x y = true -> isSubdomain y z = true ->
      isSubdomain x z = true) /\
  (forall x y : string,
      isSubdomain x y = true -> isSubdomain y x = true -> x = y) /\
  (forall x y : string,
      isSubdomain x y = true -> GoString.len y <= GoString.len x).
Proof.
  split; [|split; [|split]].
  - intros x. apply isSubdomain_iff. by left.
  - intros x y z [->|[p ->]]%isSubdomain_iff Hyz; [done|].
    apply isSubdomain_iff in Hyz as [->|[q ->]]; apply isSubdomain_iff; right.
    + by exists p.
    + exists (p +:+ "." +:+ q). by rewrite !str_app_assoc.
  - intros x y Hxy Hyx.
    pose proof (isSubdomain_len _ _ Hyx) as Hlen.
    apply isSubdomain_iff in Hxy as [->|[p ->]]; [done|].
    rewrite !len_app in Hlen. cbn in Hlen. lia.
  - exact isSubdomain_len.
Qed.

(** Property X2.  The two names of a device pair never coincide, not even
    across pairs; each name determines the suffix, so pairs collide only when
    their suffixes are equal; and for an endpoint id of at least 5 bytes both
    names of the pair Join and Leave derive are 11 bytes long. *)
Theorem vethPair_names :
  (forall s1 s2 : string, Name (vethPair s1) <> PeerName (vethPair s2)) /\
  (forall s1 s2 : string, Name (vethPair s1) = Name (vethPair s2) -> s1 = s2) /\
  (forall s1 s2 : string,
      PeerName (vethPair s1) = PeerName (vethPair s2) -> s1 = s2) /\
  (forall id : string,
      5 <= GoString.len id ->
      GoString.len (Name (vethPair (String.substring 0 5 id))) = 11 /\
      GoString.len (PeerName (vethPair (String.substring 0 5 id))) = 11).
Proof.
  split; [|split; [|split]].
  - intros s1 s2 E. cbn [vethPair Name PeerName] in E.
    cbv [String.append] in E. discriminate E.
  - intros s1 s2 E. cbn [vethPair Name] in E.
    cbv [String.append] in E. by injection E.
  - intros s1 s2 E. cbn [vethPair PeerName] in E.
    cbv [String.append] in E. by injection E.
  - intros id Hlen. cbn [vethPair Name PeerName]. rewrite !len_app.
    unfold GoString.len in *. rewrite substring_length by done. done.
Qed.

(** Property X3.  For an address that is not IPv4 (nil, or of a length other
    than 4 and 16, or a 16-byte address that is not IPv4-mapped) [To4] is nil
    and [makeMac] gives 7a:42:00:00:00:00, the same for all of them; and the
    hardware address is 17 bytes long whatever the address. *)
Theorem makeMac_without_ipv4 :
  (forall ip : Net.IP, Net.To4 ip = [] -> makeMac ip = "7a:42:00:00:00:00") /\
  (forall ip : Net.IP, length ip <> 4 -> length ip <> 16 -> Net.To4 ip = []) /\
  (forall ip : Net.IP,
      length ip = 16 -> Net.isZeros (firstn 10 ip) = false -> Net.To4 ip = []) /\
  (forall ip : Net.IP, GoString.len (makeMac ip) = 17).
Proof.
  split; [|split; [|split]].
  - intros ip E. unfold makeMac. by rewrite E.
  - intros ip H4 H16. unfold Net.To4.
    destruct (Nat.eqb_spec (length ip) Net.IPv4len); [done|].
    by destruct (Nat.eqb_spec (length ip) Net.IPv6len).
  - intros ip H16 Hz. unfold Net.To4. rewrite H16, Hz. reflexivity.
  - intros ip. destruct (To4_nil_or_4 ip) as [E|E].
    + unfold makeMac. by rewrite E.
    + destruct (Net.To4 ip) as [|a [|b [|c [|d [|]]]]] eqn:E4; try discriminate.
      rewrite (makeMac_octets _ _ _ _ _ E4). reflexivity.
Qed.

Lemma isSubdomain_partial_order_witness :
  isSubdomain "a.b.weave.local" "weave.local" = true /\
  ("weave.local" = "weave.local") /\
  GoString.len "weave.local" <= GoString.len "b.weave.local".
Proof.
  destruct isSubdomain_partial_order as (_ & Htrans & Hanti & Hlen).
  split; [|split].
  - apply (Htrans _ "b.weave.local"); reflexivity.
  - apply Hanti; reflexivity.
  - apply Hlen. reflexivity.
Defined.

Lemma vethPair_names_witness :
  "01234" = "01234" /\
  GoString.len (Name (vethPair (String.substring 0 5 "0123456789"))) = 11.
Proof.
  destruct vethPair_names as (_ & Hinj & _ & Hlen).
  split.
  - apply Hinj. reflexivity.
  - apply (Hlen "0123456789"). vm_compute. lia.
Defined.

Lemma makeMac_without_ipv4_witness :
  makeMac [] = "7a:42:00:00:00:00" /\
  Net.To4 [x0a; x00; x00] = [] /\
  Net.To4 (x01 :: ipv6Loopback) = [] /\
  makeMac (rev ipv6Loopback) = "7a:42:00:00:00:00".
Proof.
  destruct makeMac_without_ipv4 as (Hzero & Hlen & Hv6 & _).
  split; [|split; [|split]].
  - apply Hzero. reflexivity.
  - apply Hlen; vm_compute; discriminate.
  - apply Hlen; vm_compute; discriminate.
  - apply Hzero. apply Hv6; reflexivity.
Defined.

(** ** The request handlers, case by case *)

(** One step of case analysis on what a handler tests or is answered. *)
Ltac world_step :=
  cbn [drv world trace negb fst snd network nameserver version];
  match goal with
  | |- context [String.eqb ?a ?b] => destruct (String.eqb_spec a b)
  | |- context [GoString.slice_to ?a ?n] => destruct (GoString.slice_to a n) eqn:?
  | |- context [allocateIP ?e ?w] => destruct (allocateIP e w) as [[?|?] ?] eqn:?
  | |- context [releaseIP ?e ?w] => destruct (releaseIP e w) as [[?|] ?] eqn:?
  | |- context [LinkAdd ?v ?w] => destruct (LinkAdd v w) as [[?|] ?] eqn:?
  | |- context [LinkByName ?n ?w] =>
      destruct (LinkByName n w) as [[[?|?|? ?]|?] ?] eqn:?
  | |- context [LinkSetMaster ?v ?b ?w] =>
      destruct (LinkSetMaster v b w) as [[?|] ?] eqn:?
  | |- context [LinkSetUp ?v ?w] => destruct (LinkSetUp v w) as [[?|] ?] eqn:?
  | |- context [LinkDel ?v ?w] => destruct (LinkDel v w) as [[?|] ?] eqn:?
  end.

Ltac handler_cases :=
  repeat world_step; cbn [drv world trace negb fst snd].

(** Follows a handler along the answers given as hypotheses. *)
Ltac answered :=
  repeat (cbn [drv world trace negb fst snd];
          match goal with
          | E : ?x = (_, _) |- context [?x] => rewrite E
          end);
  cbn [drv world trace negb fst snd].

Section DriverState.
Context {W : Type} `{!Dockerer W} `{!Netlink W}.

Lemma watched_after_create (d : driver) (id : string) :
  network d = EmptyString ->
  watchedFollowsNetwork d ->
  watchedFollowsNetwork
    (mkDriver (version d) id (nameserver d)
       (mkWatcher (<[id := true]> (networks (watcher_ d))))).
Proof.
  intros Hemp Hinv id' Hid'. cbn [network watcher_ networks].
  rewrite lookup_insert. specialize (Hinv id' Hid'). rewrite Hemp in Hinv.
  destruct (decide (id = id')) as [->|Hne].
  - by rewrite decide_True.
  - rewrite decide_False by congruence. rewrite Hinv.
    by rewrite decide_False.
Qed.

Lemma watched_after_delete (d : driver) :
  watchedFollowsNetwork d ->
  watchedFollowsNetwork
    (mkDriver (version d) EmptyString (nameserver d)
       (mkWatcher (delete (network d) (networks (watcher_ d))))).
Proof.
  intros Hinv id' Hid'. cbn [network watcher_ networks].
  rewrite lookup_delete. specialize (Hinv id' Hid').
  rewrite (decide_False (P := id' = EmptyString)) by done.
  destruct (decide (network d = id')) as [E|Hne]; [done|].
  rewrite Hinv. by rewrite decide_False.
Qed.

(** What one request does to the driver struct. *)
Lemma handleMethod_driver (r : request) (s : sys W) :
  version (drv (snd (handleMethod r s))) = version (drv s) /\
  nameserver (drv (snd (handleMethod r s))) = nameserver (drv s) /\
  (isNetworkRequest r = false -> drv (snd (handleMethod r s)) = drv s) /\
  (watchedFollowsNetwork (drv s) ->
   watchedFollowsNetwork (drv (snd (handleMethod r s)))).
Proof.
  destruct r as [[c|e]|[c|e]|[c|e]|[c|e]|[c|e]|[c|e]];
    cbn [handleMethod isNetworkRequest]; mrun; handler_cases;
    cbn [drv version nameserver]; repeat split; try done.
  - intros Hinv. by apply watched_after_create.
  - intros Hinv.
    match goal with E : Api.dn_NetworkID c = _ |- _ => rewrite E end.
    by apply watched_after_delete.
Qed.

(** The same for requests served one after the other. *)
Lemma serveRequests_driver (rs : list request) (s : sys W) :
  version (drv (snd (serveRequests rs s))) = version (drv s) /\
  nameserver (drv (snd (serveRequests rs s))) = nameserver (drv s) /\
  (forallb (fun r => negb (isNetworkRequest r)) rs = true ->
   drv (snd (serveRequests rs s)) = drv s) /\
  (watchedFollowsNetwork (drv s) ->
   watchedFollowsNetwork (drv (snd (serveRequests rs s)))).
Proof.
  revert s. induction rs as [|r rs IH]; intros s; [done|].
  unfold serveRequests in *. cbn [map]. rewrite serveAll_cons.
  destruct (handleMethod_driver r s) as (Hv & Hn & Hd & Hi).
  destruct (handleMethod r s) as [[[]|p] s1]; cbn [snd] in *.
  - destruct (IH s1) as (Hv1 & Hn1 & Hd1 & Hi1).
    rewrite Hv1, Hn1, Hv, Hn. repeat split; [|by auto].
    cbn [forallb]. intros [Hr Hrs]%andb_prop. apply negb_true_iff in Hr.
    by rewrite Hd1, Hd.
  - repeat split; [done|done| |done].
    cbn [forallb]. intros [Hr Hrs]%andb_prop. apply negb_true_iff in Hr. auto.
Qed.

End DriverState.

Section RequestProperties.
Context {W : Type} `{!Dockerer W} `{!Netlink W}.

(** Property X4.  A request whose body does not decode is answered with
    status 400 and nothing else happens: no call, no change of the driver or
    of the world.  The decoder's error text is part of the message for
    CreateNetwork, DeleteNetwork and CreateEndpoint only; DeleteEndpoint, Join
    and Leave send a fixed message. *)
Theorem malformed_body_bad_request
    (r : request) (err : error) (d : driver) (w : W) :
  decodeError r = Some err ->
  run (handleMethod r) d w =
    (Done tt,
     mkSys d w
       [ELog Error "%d %s"
          [LInt StatusBadRequest; LStr (decodeFailureMessage r err)];
        EReply (HttpError StatusBadRequest (decodeFailureMessage r err))]).
Proof.
  intros Herr.
  destruct r as [[c|e]|[c|e]|[c|e]|[c|e]|[c|e]|[c|e]];
    cbn [decodeError] in Herr; try discriminate Herr;
    injection Herr as ->; reflexivity.
Qed.

(** Property X5.  Every request is answered exactly once, except a decoded
    Join or Leave request whose endpoint id is shorter than 5 bytes: that one
    panics with nothing written, nothing called and the world untouched.  No
    other request panics. *)
Theorem one_reply_unless_short_id (r : request) (d : driver) (w : W) :
  let '(o, s') := run (handleMethod r) d w in
  if shortEndpointID r
  then o = Panicked SliceBoundsOutOfRange /\
       replies (trace s') = [] /\ calls (trace s') = [] /\ world s' = w
  else o = Done tt /\ length (replies (trace s')) = 1.
Proof.
  destruct r as [[c|e]|[c|e]|[c|e]|[c|e]|[c|e]|[c|e]];
    cbn [handleMethod shortEndpointID]; mrun.
  9: destruct (Nat.ltb_spec (GoString.len (Api.j_EndpointID c)) 5) as [Hlt|Hge];
     [rewrite (slice_to_None _ _ Hlt) | rewrite (slice_to_Some _ _ Hge)].
  12: destruct (Nat.ltb_spec (GoString.len (Api.l_EndpointID c)) 5) as [Hlt|Hge];
     [rewrite (slice_to_None _ _ Hlt) | rewrite (slice_to_Some _ _ Hge)].
  all: handler_cases; repeat split; reflexivity.
Qed.

(** Property X6.  Whatever requests are served, the version and the
    nameserver of the driver stay as they were, and requests other than
    CreateNetwork and DeleteNetwork leave the whole driver struct as it was:
    the driver keeps no state about endpoints. *)
Theorem only_network_requests_change_driver (rs : list request) (s : sys W) :
  version (drv (snd (serveRequests rs s))) = version (drv s) /\
  nameserver (drv (snd (serveRequests rs s))) = nameserver (drv s) /\
  (forallb (fun r => negb (isNetworkRequest r)) rs = true ->
   drv (snd (serveRequests rs s)) = drv s).
Proof.
  destruct (serveRequests_driver rs s) as (Hv & Hn & Hd & _). done.
Qed.

(** Property X7.  The watched set follows the stored network id: on a new
    driver, and after any sequence of requests served from a state where it
    holds, a nonempty id is in the watched set (with value true) exactly when
    it is the stored network id; so at most one nonempty id is watched. *)
Theorem watched_set_follows_network :
  (forall v : string, watchedFollowsNetwork (New v)) /\
  (forall (rs : list request) (s : sys W),
      watchedFollowsNetwork (drv s) ->
      watchedFollowsNetwork (drv (snd (serveRequests rs s)))) /\
  (forall (v : string) (rs : list request) (w : W) (id1 id2 : string),
      let d' := drv (snd (run (serveRequests rs) (New v) w)) in
      id1 <> EmptyString -> id2 <> EmptyString ->
      is_Some (networks (watcher_ d') !! id1) ->
      is_Some (networks (watcher_ d') !! id2) ->
      id1 = id2 /\ id1 = network d').
Proof.
  assert (forall v : string, watchedFollowsNetwork (New v)) as Hnew.
  { intros v id Hid. cbn. rewrite lookup_empty. by rewrite decide_False. }
  split; [exact Hnew|]. split.
  - intros rs s Hinv. by apply serveRequests_driver.
  - intros v rs w id1 id2 d' Hid1 Hid2 [b1 H1] [b2 H2].
    assert (watchedFollowsNetwork d') as Hinv.
    { apply (serveRequests_driver rs (mkSys (New v) w [])). apply Hnew. }
    rewrite (Hinv id1 Hid1) in H1. rewrite (Hinv id2 Hid2) in H2.
    destruct (decide (id1 = network d')); [|done].
    destruct (decide (id2 = network d')); [|done].
    split; congruence.
Qed.

(** Property X8.  On a driver without a network, CreateNetwork followed by
    DeleteNetwork for the same id, an id that is not in the watched set,
    answers both with the empty payload and gives back the driver struct as
    it was; the world is untouched and no call is made. *)
Theorem create_then_delete_restores (id : string) (s : sys W) :
  network (drv s) = EmptyString ->
  networks (watcher_ (drv s)) !! id = None ->
  exists s',
    serveRequests [CreateNetwork (Decoded (Api.mkCreateNetwork id));
                   DeleteNetwork (Decoded (Api.mkDeleteNetwork id))] s
      = (Done tt, s') /\
    drv s' = drv s /\
    world s' = world s /\
    calls (trace s') = calls (trace s) /\
    replies (trace s') = replies (trace s) ++ [Json PEmpty; Json PEmpty].
Proof.
  intros Hemp Hfresh.
  destruct (createNetwork_vacant (Api.mkCreateNetwork id) s Hemp)
    as (s1 & Hrun1 & Hn1 & Hm1 & Hns1 & Hv1 & Hw1 & Hc1 & Hr1).
  cbn [Api.cn_NetworkID] in *.
  destruct (deleteNetwork_match (Api.mkDeleteNetwork id) s1)
    as (s2 & Hrun2 & Hn2 & Hm2 & Hns2 & Hv2 & Hw2 & Hc2 & Hr2); [by rewrite Hn1|].
  cbn [Api.dn_NetworkID] in *.
  exists s2. unfold serveRequests. cbn [map handleMethod].
  rewrite (serveAll_step _ _ _ _ Hrun1), (serveAll_step _ _ _ _ Hrun2).
  split; [reflexivity|].
  rewrite Hw2, Hw1, Hc2, Hc1, Hr2, Hr1, <- app_assoc.
  repeat split; try done.
  rewrite Hm1, delete_insert_id in Hm2 by done.
  destruct (drv s2) as [v2 n2 ns2 [m2]], (drv s) as [v0 n0 ns0 [m0]].
  cbn in *. congruence.
Qed.

(** Property X9.  Watching and unwatching act on the watched set as on a
    set: after [WatchNetwork] the id is there, after [UnwatchNetwork] it is
    not, even when it had been watched twice; other ids and the stored
    network id are not affected, and nothing is written or called. *)
Theorem watch_unwatch_set (uuid : string) (s : sys W) :
  let s1 := snd (WatchNetwork uuid s) in
  let s2 := snd (UnwatchNetwork uuid s) in
  let s3 := snd (UnwatchNetwork uuid (snd (WatchNetwork uuid s1))) in
  networks (watcher_ (drv s1)) !! uuid = Some true /\
  networks (watcher_ (drv s2)) !! uuid = None /\
  networks (watcher_ (drv s3)) !! uuid = None /\
  (forall other : string,
      other <> uuid ->
      networks (watcher_ (drv s1)) !! other = networks (watcher_ (drv s)) !! other /\
      networks (watcher_ (drv s2)) !! other = networks (watcher_ (drv s)) !! other) /\
  network (drv s1) = network (drv s) /\
  network (drv s2) = network (drv s) /\
  replies (trace s1) = replies (trace s) /\ calls (trace s1) = calls (trace s) /\
  replies (trace s2) = replies (trace s) /\ calls (trace s2) = calls (trace s).
Proof.
  mrun. cbn [snd drv trace watcher_ networks network].
  rewrite lookup_insert_eq, !lookup_delete_eq.
  repeat split; try by trace_simpl.
  - by rewrite lookup_insert_ne.
  - by rewrite lookup_delete_ne.
Qed.

End RequestProperties.

(** ** Endpoints: creation, Join, Leave, deletion *)

Section EndpointProperties.
Context {W : Type} `{!Dockerer W} `{!Netlink W}.

(** Property X10.  A CreateEndpoint request whose network id equals the
    stored one (the empty id included, while no network is stored) makes
    exactly one call, to the allocator, for the request's endpoint id.  If
    the allocator fails the answer is status 500 with a fixed message;
    otherwise it is the lease as text with the hardware address derived from
    it, which for an IPv4 lease is 7a:42 followed by the four octets.  The
    driver is left as it was. *)
Theorem createEndpoint_lease_response
    (create : Api.CreateEndpointRequest) (d : driver) (w : W) :
  Api.ce_NetworkID create = network d ->
  let endID := Api.ce_EndpointID create in
  let s' := snd (run (createEndpoint (Decoded create)) d w) in
  fst (run (createEndpoint (Decoded create)) d w) = Done tt /\
  drv s' = d /\
  world s' = snd (allocateIP endID w) /\
  calls (trace s') = [CAllocateIP endID] /\
  (forall err : error,
      fst (allocateIP endID w) = Err err ->
      replies (trace s') =
        [HttpError StatusInternalServerError "Unable to allocate IP"]) /\
  (forall ip : IPNet,
      fst (allocateIP endID w) = Ok ip ->
      replies (trace s') =
        [Json (PCreateEndpoint
                 (Api.mkCreateEndpointResponse
                    (Api.mkEndpointInterface (IPNet_String ip) (makeMac (IP ip)))))]) /\
  (forall (ip : IPNet) (a b c e : byte),
      fst (allocateIP endID w) = Ok ip ->
      Net.To4 (IP ip) = [a; b; c; e] ->
      replies (trace s') =
        [Json (PCreateEndpoint
                 (Api.mkCreateEndpointResponse
                    (Api.mkEndpointInterface (IPNet_String ip)
                       (Net.HardwareAddr_String [x7a; x42; a; b; c; e]))))]).
Proof.
  intros Heq. cbv zeta. mrun.
  destruct (String.eqb_spec (Api.ce_NetworkID create) (network d)) as [_|]; [|done].
  handler_cases; repeat split; intros; simplify_eq; try reflexivity.
  match goal with
  | E : Net.To4 _ = _ |- _ => by rewrite (makeMac_octets _ _ _ _ _ E)
  end.
Qed.

(** Property X11.  A request whose body decodes and whose handler does not
    panic gets exactly one reply, and the handler chooses status 200 for it in
    every case but one.  A second network, an unknown network (in
    DeleteNetwork and in CreateEndpoint) and every outcome of Join are answered
    with status 200, the failures as an Err payload; DeleteEndpoint and Leave
    answer the empty payload.  The exception is CreateEndpoint on the stored
    network when the allocator fails: status 500.  Hence a reply written by
    [http.Error] means a body that did not decode (400) or that allocator
    failure (500).  Writing the response is taken to succeed: the branch of
    [objectResponse] that answers 500 when the encoder fails is outside the
    model. *)
Theorem http_status_convention (r : request) (d : driver) (w : W) :
  let s' := snd (run (handleMethod r) d w) in
  (decodeError r = None ->
   shortEndpointID r = false ->
   exists rep : reply,
     replies (trace s') = [rep] /\
     match r with
     | CreateNetwork (Decoded create) =>
         rep = if String.eqb (network d) EmptyString
               then Json PEmpty else alreadyMade (network d)
     | DeleteNetwork (Decoded del) =>
         rep = if String.eqb (Api.dn_NetworkID del) (network d)
               then Json PEmpty else notFound (Api.dn_NetworkID del)
     | CreateEndpoint (Decoded create) =>
         rep = if String.eqb (Api.ce_NetworkID create) (network d)
               then match fst (allocateIP (Api.ce_EndpointID create) w) with
                    | Ok ip =>
                        Json (PCreateEndpoint
                                (Api.mkCreateEndpointResponse
                                   (Api.mkEndpointInterface
                                      (IPNet_String ip) (makeMac (IP ip)))))
                    | Err _ =>
                        HttpError StatusInternalServerError
                          "Unable to allocate IP"
                    end
               else Json (PErr ("No such network " +:+ Api.ce_NetworkID create))
     | DeleteEndpoint (Decoded _) | Leave (Decoded _) => rep = Json PEmpty
     | Join (Decoded j) =>
         rep = joinAnswer
                 (vethPair (String.substring 0 5 (Api.j_EndpointID j)))
                 (nameserver d) \/
         rep = joinError "could not create veth pair" \/
         rep = joinError bridgeNotPresent \/
         rep = joinError notABridge \/
         rep = joinError "unable to bring veth up"
     | _ => False
     end) /\
  (forall (code : nat) (msg : string),
      In (HttpError code msg) (replies (trace s')) ->
      (code = StatusBadRequest /\
       exists err : error,
         decodeError r = Some err /\ msg = decodeFailureMessage r err) \/
      (code = StatusInternalServerError /\ msg = "Unable to allocate IP" /\
       exists (create : Api.CreateEndpointRequest) (err : error),
         r = CreateEndpoint (Decoded create) /\
         Api.ce_NetworkID create = network d /\
         fst (allocateIP (Api.ce_EndpointID create) w) = Err err)).
Proof.
  cbv zeta. split.
  - intros Hdec Hshort.
    destruct r as [[c|e]|[c|e]|[c|e]|[c|e]|[c|e]|[c|e]];
      cbn [decodeError] in Hdec; try discriminate Hdec;
      cbn [handleMethod]; mrun;
      try (unfold shortEndpointID in Hshort; apply Nat.ltb_ge in Hshort;
           rewrite (slice_to_Some _ _ Hshort));
      handler_cases;
      (eexists; split; [reflexivity|]);
      unfold alreadyMade, notFound, joinAnswer, joinError, routeToDNS,
        bridgeNotPresent, notABridge;
      cbn [Sprintf]; rewrite ?app_empty_r;
      repeat match goal with
             | |- context [String.eqb ?a ?b] => destruct (String.eqb_spec a b)
             end;
      try done; try reflexivity; auto 6.
  - destruct r as [[c|e]|[c|e]|[c|e]|[c|e]|[c|e]|[c|e]];
      cbn [handleMethod]; mrun; handler_cases;
      intros code msg Hin; cbn in Hin;
      repeat match goal with H : _ \/ _ |- _ => destruct H as [H|H] end;
      try done; try discriminate Hin; injection Hin as <- <-.
    all: try (left; split; [reflexivity|]; eexists; split; reflexivity).
    right. split; [reflexivity|]. split; [reflexivity|].
    do 2 eexists. split; [reflexivity|]. split; [done|].
    match goal with E : allocateIP _ _ = _ |- _ => by rewrite E end.
Qed.

(** Property X12.  Join, for an endpoint id of at least 5 bytes, stops at the
    first step of the device layer that fails and reports it as an Err
    payload: the creation of the pair, the lookup of the weave device, its not
    being a bridge, the attachment to the bridge (after which the pair is not
    brought up), the bringing up.  In no case does it delete the pair it has
    created: Join never calls LinkDel. *)
Theorem join_failures_keep_the_pair (j : Api.JoinRequest) (d : driver) (w : W) :
  5 <= GoString.len (Api.j_EndpointID j) ->
  let local := vethPair (String.substring 0 5 (Api.j_EndpointID j)) in
  let s' := snd (run (joinEndpoint (Decoded j)) d w) in
  forallb (fun c => negb (isLinkDel c)) (calls (trace s')) = true /\
  (forall (err : error) (w1 : W),
      LinkAdd local w = (Some err, w1) ->
      replies (trace s') = [joinError "could not create veth pair"] /\
      calls (trace s') = [CLinkAdd local] /\
      world s' = w1) /\
  (forall (err : error) (w1 w2 : W),
      LinkAdd local w = (None, w1) ->
      LinkByName WeaveBridge w1 = (Err err, w2) ->
      replies (trace s') = [joinError bridgeNotPresent] /\
      calls (trace s') = [CLinkAdd local; CLinkByName WeaveBridge] /\
      world s' = w2) /\
  (forall (link : Link) (w1 w2 : W),
      LinkAdd local w = (None, w1) ->
      LinkByName WeaveBridge w1 = (Ok link, w2) ->
      (forall bridge : string, link <> Bridge bridge) ->
      replies (trace s') = [joinError notABridge] /\
      calls (trace s') = [CLinkAdd local; CLinkByName WeaveBridge] /\
      world s' = w2) /\
  (forall (bridge : string) (err : error) (w1 w2 w3 : W),
      LinkAdd local w = (None, w1) ->
      LinkByName WeaveBridge w1 = (Ok (Bridge bridge), w2) ->
      LinkSetMaster local bridge w2 = (Some err, w3) ->
      replies (trace s') = [joinError "unable to bring veth up"] /\
      calls (trace s') =
        [CLinkAdd local; CLinkByName WeaveBridge; CLinkSetMaster local bridge] /\
      world s' = w3) /\
  (forall (bridge : string) (err : error) (w1 w2 w3 w4 : W),
      LinkAdd local w = (None, w1) ->
      LinkByName WeaveBridge w1 = (Ok (Bridge bridge), w2) ->
      LinkSetMaster local bridge w2 = (None, w3) ->
      LinkSetUp local w3 = (Some err, w4) ->
      replies (trace s') = [joinError "unable to bring veth up"] /\
      calls (trace s') =
        [CLinkAdd local; CLinkByName WeaveBridge;
         CLinkSetMaster local bridge; CLinkSetUp local] /\
      world s' = w4).
Proof.
  intros Hlen. cbv zeta. mrun. rewrite (slice_to_Some _ _ Hlen).
  split; [handler_cases; reflexivity|].
  repeat split; intros; answered; try reflexivity.
  all: by destruct link; [exfalso; naive_solver| |].
Qed.

(** Property X13.  Join, for an endpoint id of at least 5 bytes and a device
    layer that succeeds (the weave device being a bridge), makes exactly four
    calls, in this order: create the pair, look up weave, attach the local
    end to the bridge, bring it up.  It answers with the peer name as source
    name, the prefix ethwe, and one route to the nameserver (its address with
    /32, connected, no next hop) if a nameserver is configured, no route
    otherwise.  The driver is left as it was. *)
Theorem join_success_answer
    (j : Api.JoinRequest) (d : driver) (w : W)
    (bridge : string) (w1 w2 w3 w4 : W) :
  5 <= GoString.len (Api.j_EndpointID j) ->
  let local := vethPair (String.substring 0 5 (Api.j_EndpointID j)) in
  LinkAdd local w = (None, w1) ->
  LinkByName WeaveBridge w1 = (Ok (Bridge bridge), w2) ->
  LinkSetMaster local bridge w2 = (None, w3) ->
  LinkSetUp local w3 = (None, w4) ->
  let '(o, s') := run (joinEndpoint (Decoded j)) d w in
  o = Done tt /\
  drv s' = d /\
  world s' = w4 /\
  calls (trace s') =
    [CLinkAdd local; CLinkByName WeaveBridge;
     CLinkSetMaster local bridge; CLinkSetUp local] /\
  replies (trace s') = [joinAnswer local (nameserver d)].
Proof.
  intros Hlen. cbv zeta. intros. mrun. rewrite (slice_to_Some _ _ Hlen).
  answered. unfold joinAnswer, routeToDNS.
  destruct (String.eqb (nameserver d) EmptyString); repeat split; reflexivity.
Qed.

(** Property X14.  What Join calls, answers and leaves of the world depends
    only on the first 5 bytes of the endpoint id, on the configured
    nameserver and on the world: the network id and the sandbox key of the
    request, the rest of the endpoint id and the stored network id play no
    part.  In particular Join does not check that the network exists. *)
Theorem join_depends_on_prefix_only
    (j1 j2 : Api.JoinRequest) (d1 d2 : driver) (w : W) :
  5 <= GoString.len (Api.j_EndpointID j1) ->
  5 <= GoString.len (Api.j_EndpointID j2) ->
  String.substring 0 5 (Api.j_EndpointID j1) =
    String.substring 0 5 (Api.j_EndpointID j2) ->
  nameserver d1 = nameserver d2 ->
  let s1 := snd (run (joinEndpoint (Decoded j1)) d1 w) in
  let s2 := snd (run (joinEndpoint (Decoded j2)) d2 w) in
  replies (trace s1) = replies (trace s2) /\
  calls (trace s1) = calls (trace s2) /\
  world s1 = world s2.
Proof.
  intros Hlen1 Hlen2 Hpre Hns. cbv zeta.
  destruct d1 as [v1 n1 ns1 wa1], d2 as [v2 n2 ns2 wa2].
  cbn [nameserver] in Hns. subst ns2. mrun.
  rewrite (slice_to_Some _ _ Hlen1), (slice_to_Some _ _ Hlen2), Hpre.
  handler_cases; repeat split; reflexivity.
Qed.

(** Property X15.  DeleteEndpoint answers with the empty payload first and
    releases the address afterwards, with one call for the request's endpoint
    id; a failure of the release adds a warning to the log and nothing else.
    Neither the request's network id nor the stored one is looked at, and the
    driver is left as it was. *)
Theorem deleteEndpoint_answers_then_releases
    (del : Api.DeleteEndpointRequest) (d : driver) (w : W) :
  let endID := Api.de_EndpointID del in
  run (deleteEndpoint (Decoded del)) d w =
    (Done tt,
     mkSys d (snd (releaseIP endID w))
       ([ELog Debug "Delete endpoint request: %+v"
           [LVal [Api.de_NetworkID del; endID]];
         EReply (Json PEmpty);
         ECall (CReleaseIP endID)] ++
        match fst (releaseIP endID w) with
        | Some err => [ELog Warning "error releasing IP: %s" [LStr err]]
        | None => []
        end ++
        [ELog Info "Delete endpoint %s" [LStr endID]])).
Proof. cbv zeta. mrun. handler_cases; reflexivity. Qed.

(** Property X16.  Leave, for an endpoint id of at least 5 bytes, first
    deletes the pair named after the first 5 bytes, with one call, and then
    answers with the empty payload; a failure of the deletion adds a warning
    to the log and nothing else.  Neither the request's network id nor the
    stored one is looked at, and the driver is left as it was. *)
Theorem leaveEndpoint_deletes_then_answers
    (l : Api.LeaveRequest) (d : driver) (w : W) :
  5 <= GoString.len (Api.l_EndpointID l) ->
  let local := vethPair (String.substring 0 5 (Api.l_EndpointID l)) in
  run (leaveEndpoint (Decoded l)) d w =
    (Done tt,
     mkSys d (snd (LinkDel local w))
       ([ELog Debug "Leave request: %+v"
           [LVal [Api.l_NetworkID l; Api.l_EndpointID l]];
         ECall (CLinkDel local)] ++
        match fst (LinkDel local w) with
        | Some err =>
            [ELog Warning "unable to delete veth on leave: %s" [LStr err]]
        | None => []
        end ++
        [EReply (Json PEmpty);
         ELog Info "Leave %s:%s" [LStr (Api.l_NetworkID l); LStr (Api.l_EndpointID l)]])).
Proof.
  intros Hlen. cbv zeta. mrun. rewrite (slice_to_Some _ _ Hlen).
  handler_cases; reflexivity.
Qed.

End EndpointProperties.

Section Composition.
Context {W : Type} `{!Dockerer W} `{!Netlink W}.

(** Join from any state, for an endpoint id of at least 5 bytes: one reply,
    the driver untouched, the pair created first. *)
Lemma joinEndpoint_returns (j : Api.JoinRequest) (s : sys W) :
  5 <= GoString.len (Api.j_EndpointID j) ->
  let local := vethPair (String.substring 0 5 (Api.j_EndpointID j)) in
  exists s' rep rest,
    joinEndpoint (Decoded j) s = (Done tt, s') /\
    drv s' = drv s /\
    replies (trace s') = replies (trace s) ++ [rep] /\
    calls (trace s') = calls (trace s) ++ CLinkAdd local :: rest /\
    Forall (fun v => v = local) (omap callVeth rest).
Proof.
  intros Hlen. cbv zeta. mrun. rewrite (slice_to_Some _ _ Hlen).
  handler_cases.
  all: do 3 eexists; (split; [reflexivity|]); cbn [drv trace];
       (split; [done|]); (split; [by trace_simpl|]); (split; [by trace_simpl|]);
       cbn; by repeat constructor.
Qed.

(** Property X17.  The four requests of an endpoint's life on the stored
    network, served in order for one endpoint id of at least 5 bytes, are all
    answered, the last two with the empty payload; the allocator is asked for
    the id first and told to release the same id last, the pair created by
    Join is the pair deleted by Leave, every netlink call in between is about
    that pair, and the driver is left as it was. *)
Theorem endpoint_lifecycle (net endID sandbox : string) (s : sys W) :
  net = network (drv s) ->
  5 <= GoString.len endID ->
  let local := vethPair (String.substring 0 5 endID) in
  exists (s' : sys W) (r1 r2 : reply) (rest : list call),
    serveRequests
      [CreateEndpoint (Decoded (Api.mkCreateEndpoint net endID));
       Join (Decoded (Api.mkJoin net endID sandbox));
       Leave (Decoded (Api.mkLeave net endID));
       DeleteEndpoint (Decoded (Api.mkDeleteEndpoint net endID))] s
      = (Done tt, s') /\
    drv s' = drv s /\
    replies (trace s') = replies (trace s) ++ [r1; r2; Json PEmpty; Json PEmpty] /\
    calls (trace s') =
      calls (trace s) ++
      CAllocateIP endID :: CLinkAdd local :: rest ++
      [CLinkDel local; CReleaseIP endID] /\
    Forall (fun v => v = local) (omap callVeth rest).
Proof.
  intros Hnet Hlen local.
  destruct (createEndpoint_leases (Api.mkCreateEndpoint net endID) s Hnet)
    as (s1 & Hrun1 & Hd1 & _ & Hc1 & Hr1).
  destruct (joinEndpoint_returns (Api.mkJoin net endID sandbox) s1 Hlen)
    as (s2 & r2 & rest & Hrun2 & Hd2 & Hr2 & Hc2 & Hrest).
  destruct (leaveEndpoint_acknowledges (Api.mkLeave net endID) s2 Hlen)
    as (s3 & Hrun3 & Hd3 & _ & Hc3 & Hr3 & _).
  destruct (deleteEndpoint_acknowledges (Api.mkDeleteEndpoint net endID) s3)
    as (s4 & Hrun4 & Hd4 & _ & Hc4 & Hr4 & _).
  cbn [Api.ce_EndpointID Api.j_EndpointID Api.l_EndpointID Api.de_EndpointID] in *.
  eexists s4, _, r2, rest. unfold serveRequests. cbn [map handleMethod].
  rewrite (serveAll_step _ _ _ _ Hrun1), (serveAll_step _ _ _ _ Hrun2),
    (serveAll_step _ _ _ _ Hrun3), (serveAll_step _ _ _ _ Hrun4).
  split; [reflexivity|]. split; [congruence|].
  rewrite Hr4, Hr3, Hr2, Hr1, Hc4, Hc3, Hc2, Hc1, <- !app_assoc.
  repeat split; try done.
Qed.

(** Property X18.  Each method keeps to its own collaborator: CreateNetwork
    and DeleteNetwork call none and leave the world as it is, CreateEndpoint
    and DeleteEndpoint call at most once and only the allocator, Join and
    Leave call only the network-device layer.  No request handler inspects a
    container or calls the name registrar. *)
Theorem collaborators_by_method (r : request) (d : driver) (w : W) :
  let s' := snd (run (handleMethod r) d w) in
  match r with
  | CreateNetwork _ | DeleteNetwork _ =>
      calls (trace s') = [] /\ world s' = w
  | CreateEndpoint _ | DeleteEndpoint _ =>
      forallb isAllocatorCall (calls (trace s')) = true /\
      length (calls (trace s')) <= 1
  | Join _ | Leave _ =>
      forallb isNetlinkCall (calls (trace s')) = true
  end.
Proof.
  destruct r as [[c|e]|[c|e]|[c|e]|[c|e]|[c|e]|[c|e]];
    cbv zeta; cbn [handleMethod]; mrun; handler_cases;
    cbn; try split; try reflexivity; lia.
Qed.

End Composition.

(** ** The watcher's event loop *)

Ltac watcher_step :=
  cbn [drv world trace negb fst snd orb];
  match goal with
  | |- context [String.eqb ?a ?b] => destruct (String.eqb_spec a b)
  | |- context [InspectContainer ?i ?w] =>
      destruct (InspectContainer i w) as [[?|?] ?] eqn:?
  | |- context [isSubdomain ?x ?y] => destruct (isSubdomain x y) eqn:?
  | |- context [registerWithDNS ?i ?f ?a ?w] =>
      destruct (registerWithDNS i f a w) as [[?|] ?] eqn:?
  | |- context [deregisterWithDNS ?i ?a ?w] =>
      destruct (deregisterWithDNS i a w) as [[?|] ?] eqn:?
  end.

Ltac watcher_cases :=
  repeat watcher_step; cbn [drv world trace negb fst snd orb].

Section WatcherProperties.
Context {W : Type} `{!Dockerer W} `{!Netlink W}.

(** What one event adds to the trace. *)
Lemma handleEvent_calls (event : Docker.APIEvents) (s : sys W) :
  exists s' tr,
    handleEvent event s = (Done tt, s') /\
    trace s' = trace s ++ tr /\
    drv s' = drv s /\
    replies tr = [] /\
    omap inspectedId (calls tr) =
      (if startOrDie event then [Docker.ID event] else []) /\
    forallb isWatcherCall (calls tr) = true /\
    length (calls tr) <= (if startOrDie event then 2 else 0).
Proof.
  unfold startOrDie. mrun. watcher_cases.
  all: do 2 eexists; (split; [reflexivity|]); cbn [drv trace];
       (split; [rewrite <- ?app_assoc;
                first [reflexivity | symmetry; apply app_nil_r]|]);
       cbn; repeat split; try reflexivity; lia.
Qed.

(** Property X19.  What the watcher does for an event does not depend on the
    driver: neither the stored network id nor the watched set is consulted,
    so containers of the managed domain are registered whether or not a
    network exists.  Handling an event never fails, leaves the driver as it
    is, writes no response and calls only the container inspection and the
    name registrar. *)
Theorem handleEvent_ignores_driver
    (event : Docker.APIEvents) (d1 d2 : driver) (w : W) :
  let r1 := run (handleEvent event) d1 w in
  let r2 := run (handleEvent event) d2 w in
  fst r1 = Done tt /\
  drv (snd r1) = d1 /\
  trace (snd r1) = trace (snd r2) /\
  world (snd r1) = world (snd r2) /\
  replies (trace (snd r1)) = [] /\
  forallb isWatcherCall (calls (trace (snd r1))) = true.
Proof.
  cbv zeta. mrun. watcher_cases; repeat split; reflexivity.
Qed.

(** Property X20.  The event loop handles every event, in order, whatever
    the collaborators answer: the containers it inspects are exactly those
    of the start and die events, in the order of arrival, so a failed
    inspection or registration does not stop the loop.  It makes at most two
    calls per such event, all to the inspection or the name registrar, and it
    neither fails nor touches the driver nor writes a response. *)
Theorem eventLoop_inspects_each_event
    (events : list Docker.APIEvents) (s : sys W) :
  exists s' cs,
    eventLoop events s = (Done tt, s') /\
    drv s' = drv s /\
    replies (trace s') = replies (trace s) /\
    calls (trace s') = calls (trace s) ++ cs /\
    omap inspectedId cs = map Docker.ID (List.filter startOrDie events) /\
    forallb isWatcherCall cs = true /\
    length cs <= 2 * length (List.filter startOrDie events).
Proof.
  revert s. induction events as [|event events IH]; intros s.
  - exists s, []. cbn. by rewrite app_nil_r.
  - destruct (handleEvent_calls event s)
      as (s1 & tr1 & Hrun1 & Ht1 & Hd1 & Hr1 & Hi1 & Hw1 & Hl1).
    destruct (IH s1) as (s2 & cs2 & Hrun2 & Hd2 & Hr2 & Hc2 & Hi2 & Hw2 & Hl2).
    exists s2, (calls tr1 ++ cs2). cbn [eventLoop]. unfold mbind, M_bind.
    rewrite Hrun1. split; [exact Hrun2|].
    rewrite Hd2, Hd1, Hr2, Hc2, Ht1, replies_app, calls_app, Hr1, app_nil_r,
      <- app_assoc.
    rewrite omap_app, forallb_app, Hi1, Hi2, Hw1, Hw2, length_app.
    cbn [List.filter]. repeat split.
    + by destruct (startOrDie event).
    + destruct (startOrDie event); cbn [length]; lia.
Qed.

End WatcherProperties.

(** ** The nameserver *)

Section NameserverProperties.
Context {W : Type} `{!Dockerer W} `{!Netlink W}.
Variable ParseIP : string -> Net.IP.

(** Property X21.  [SetNameserver] refuses a string that [net.ParseIP] does
    not parse, with an error that quotes it, and leaves the driver as it was;
    otherwise it stores the string as the nameserver and changes nothing
    else.  After a nonempty nameserver has been stored, a successful Join
    answers with exactly one route: that address with /32, connected, no next
    hop. *)
Theorem SetNameserver_then_join (ns : string) (d : driver) :
  (ParseIP ns = [] ->
   SetNameserver ParseIP ns d =
     (Some ("cannot parse IP address " +:+ dquote +:+ ns +:+ dquote), d)) /\
  (ParseIP ns <> [] ->
   SetNameserver ParseIP ns d =
     (None, mkDriver (version d) (network d) ns (watcher_ d))) /\
  (ParseIP ns <> [] ->
   ns <> EmptyString ->
   forall (j : Api.JoinRequest) (w w1 w2 w3 w4 : W) (bridge : string),
     5 <= GoString.len (Api.j_EndpointID j) ->
     let local := vethPair (String.substring 0 5 (Api.j_EndpointID j)) in
     LinkAdd local w = (None, w1) ->
     LinkByName WeaveBridge w1 = (Ok (Bridge bridge), w2) ->
     LinkSetMaster local bridge w2 = (None, w3) ->
     LinkSetUp local w3 = (None, w4) ->
     replies (trace (snd (run (joinEndpoint (Decoded j))
                            (snd (SetNameserver ParseIP ns d)) w))) =
       [Json (PJoin (Api.mkJoinResponse
                       (Api.mkInterfaceName (PeerName local) "ethwe")
                       [Api.mkStaticRoute (ns +:+ "/32") Api.CONNECTED
                          EmptyString]))]).
Proof.
  unfold SetNameserver. split; [|split].
  - intros ->. reflexivity.
  - intros Hok. by destruct (ParseIP ns).
  - intros Hok Hne j w w1 w2 w3 w4 bridge Hlen Hadd Hfind Hset Hup.
    destruct (ParseIP ns); [done|]. cbn [snd]. mrun.
    rewrite (slice_to_Some _ _ Hlen). answered. cbn [nameserver].
    destruct (String.eqb_spec ns EmptyString); [done|]. reflexivity.
Qed.

End NameserverProperties.

(** ** The further properties at concrete inputs *)

Lemma malformed_body_bad_request_witness :
  run (handleMethod (Join (Malformed "unexpected EOF"))) oneNetwork goodWorld =
    (Done tt,
     mkSys oneNetwork goodWorld
       [ELog Error "%d %s"
          [LInt 400; LStr "Could not decode JSON encode payload"];
        EReply (HttpError 400 "Could not decode JSON encode payload")]) /\
  run (handleMethod (CreateNetwork (Malformed "unexpected EOF")))
    oneNetwork goodWorld =
    (Done tt,
     mkSys oneNetwork goodWorld
       [ELog Error "%d %s"
          [LInt 400; LStr "Unable to decode JSON payload: unexpected EOF"];
        EReply (HttpError 400 "Unable to decode JSON payload: unexpected EOF")]).
Proof.
  split.
  - apply (malformed_body_bad_request (W := stub)
             (Join (Malformed "unexpected EOF")) "unexpected EOF").
    reflexivity.
  - apply (malformed_body_bad_request (W := stub)
             (CreateNetwork (Malformed "unexpected EOF")) "unexpected EOF").
    reflexivity.
Defined.

Lemma only_network_requests_change_driver_witness :
  drv (snd (serveRequests
              [CreateEndpoint (Decoded (Api.mkCreateEndpoint "net1" "0123456789"));
               Join (Decoded (Api.mkJoin "net1" "abc" "sandbox"));
               DeleteEndpoint (Decoded (Api.mkDeleteEndpoint "net1" "0123456789"))]
              (mkSys oneNetwork goodWorld []))) = oneNetwork.
Proof.
  apply (only_network_requests_change_driver (W := stub)). reflexivity.
Defined.

Lemma watched_set_follows_network_witness :
  watchedFollowsNetwork
    (drv (snd (serveRequests
                 [CreateNetwork (Decoded (Api.mkCreateNetwork "net1"));
                  CreateNetwork (Decoded (Api.mkCreateNetwork "net2"))]
                 (mkSys (New "1.0") goodWorld [])))) /\
  ("net1" = "net1" /\
   "net1" = network (drv (snd (run (serveRequests
                  [CreateNetwork (Decoded (Api.mkCreateNetwork "net1"));
                   CreateNetwork (Decoded (Api.mkCreateNetwork "net2"))])
                  (New "1.0") goodWorld)))).
Proof.
  destruct (watched_set_follows_network (W := stub)) as (Hnew & Hkeep & Hone).
  split.
  - apply Hkeep. apply Hnew.
  - apply Hone; [vm_compute; discriminate | vm_compute; discriminate | |];
      exists true; reflexivity.
Defined.

Lemma create_then_delete_restores_witness :
  exists s',
    serveRequests [CreateNetwork (Decoded (Api.mkCreateNetwork "net1"));
                   DeleteNetwork (Decoded (Api.mkDeleteNetwork "net1"))]
      (mkSys (New "1.0") goodWorld []) = (Done tt, s') /\
    drv s' = New "1.0" /\
    world s' = goodWorld /\
    calls (trace s') = [] /\
    replies (trace s') = [Json PEmpty; Json PEmpty].
Proof.
  apply (create_then_delete_restores (W := stub) "net1"
           (mkSys (New "1.0") goodWorld [])); reflexivity.
Defined.

Lemma watch_unwatch_set_witness :
  networks (watcher_ (drv (snd (WatchNetwork "net2"
                                  (mkSys oneNetwork goodWorld []))))) !! "net1"
    = Some true /\
  networks (watcher_ (drv (snd (UnwatchNetwork "net2"
                                  (mkSys oneNetwork goodWorld []))))) !! "net1"
    = Some true.
Proof.
  destruct (watch_unwatch_set (W := stub) "net2" (mkSys oneNetwork goodWorld []))
    as (_ & _ & _ & Hother & _).
  destruct (Hother "net1") as [H1 H2]; [vm_compute; discriminate|].
  split; [rewrite H1 | rewrite H2]; reflexivity.
Defined.

Lemma createEndpoint_lease_response_witness :
  replies (trace (snd (run (createEndpoint
                              (Decoded (Api.mkCreateEndpoint "net1" "0123456789")))
                         oneNetwork goodWorld))) =
    [Json (PCreateEndpoint
             (Api.mkCreateEndpointResponse
                (Api.mkEndpointInterface (IPNet_String aLease)
                   "7a:42:0a:00:00:01")))] /\
  calls (trace (snd (run (createEndpoint
                            (Decoded (Api.mkCreateEndpoint EmptyString "0123456789")))
                       (New "1.0") badWorld))) = [CAllocateIP "0123456789"] /\
  replies (trace (snd (run (createEndpoint
                              (Decoded (Api.mkCreateEndpoint EmptyString "0123456789")))
                         (New "1.0") badWorld))) =
    [HttpError 500 "Unable to allocate IP"].
Proof.
  split; [|split].
  - destruct (createEndpoint_lease_response (W := stub)
                (Api.mkCreateEndpoint "net1" "0123456789") oneNetwork goodWorld)
      as (_ & _ & _ & _ & _ & _ & H); [reflexivity|].
    apply (H aLease x0a x00 x00 x01); reflexivity.
  - destruct (createEndpoint_lease_response (W := stub)
                (Api.mkCreateEndpoint EmptyString "0123456789") (New "1.0") badWorld)
      as (_ & _ & _ & H & _); [reflexivity|]. exact H.
  - destruct (createEndpoint_lease_response (W := stub)
                (Api.mkCreateEndpoint EmptyString "0123456789") (New "1.0") badWorld)
      as (_ & _ & _ & _ & H & _); [reflexivity|].
    apply (H "stub failure"). reflexivity.
Defined.

Lemma http_status_convention_witness :
  (exists rep : reply,
     replies (trace (snd (run (handleMethod
                (CreateNetwork (Decoded (Api.mkCreateNetwork "net2"))))
              oneNetwork goodWorld))) = [rep] /\
     rep = alreadyMade "net1") /\
  (exists rep : reply,
     replies (trace (snd (run (handleMethod
                (CreateEndpoint (Decoded (Api.mkCreateEndpoint "net1" "0123456789"))))
              oneNetwork badWorld))) = [rep] /\
     rep = HttpError 500 "Unable to allocate IP") /\
  (exists rep : reply,
     replies (trace (snd (run (handleMethod
                (Join (Decoded (Api.mkJoin "net1" "0123456789" "sandbox"))))
              oneNetwork (scriptWorld [true; false])))) = [rep] /\
     (rep = joinAnswer (vethPair "01234") EmptyString \/
      rep = joinError "could not create veth pair" \/
      rep = joinError bridgeNotPresent \/
      rep = joinError notABridge \/
      rep = joinError "unable to bring veth up")) /\
  ((500 = StatusBadRequest /\
    exists err : error,
      decodeError (CreateEndpoint
                     (Decoded (Api.mkCreateEndpoint "net1" "0123456789"))) = Some err /\
      "Unable to allocate IP" =
        decodeFailureMessage
          (CreateEndpoint (Decoded (Api.mkCreateEndpoint "net1" "0123456789"))) err) \/
   (500 = StatusInternalServerError /\
    "Unable to allocate IP" = "Unable to allocate IP" /\
    exists (create : Api.CreateEndpointRequest) (err : error),
      CreateEndpoint (Decoded (Api.mkCreateEndpoint "net1" "0123456789")) =
        CreateEndpoint (Decoded create) /\
      Api.ce_NetworkID create = network oneNetwork /\
      fst (allocateIP (Api.ce_EndpointID create) badWorld) = Err err)).
Proof.
  split; [|split; [|split]].
  - destruct (http_status_convention (W := stub)
                (CreateNetwork (Decoded (Api.mkCreateNetwork "net2")))
                oneNetwork goodWorld) as (H & _).
    destruct H as (rep & Hr & Hrep); [reflexivity | reflexivity |].
    exists rep. split; [exact Hr | exact Hrep].
  - destruct (http_status_convention (W := stub)
                (CreateEndpoint (Decoded (Api.mkCreateEndpoint "net1" "0123456789")))
                oneNetwork badWorld) as (H & _).
    destruct H as (rep & Hr & Hrep); [reflexivity | reflexivity |].
    exists rep. split; [exact Hr | exact Hrep].
  - destruct (http_status_convention (W := scripted)
                (Join (Decoded (Api.mkJoin "net1" "0123456789" "sandbox")))
                oneNetwork (scriptWorld [true; false])) as (H & _).
    destruct H as (rep & Hr & Hrep); [reflexivity | reflexivity |].
    exists rep. split; [exact Hr | exact Hrep].
  - destruct (http_status_convention (W := stub)
                (CreateEndpoint (Decoded (Api.mkCreateEndpoint "net1" "0123456789")))
                oneNetwork badWorld) as (_ & H).
    apply (H 500 "Unable to allocate IP"). left. reflexivity.
Defined.

Lemma join_failures_keep_the_pair_witness :
  let j := Api.mkJoin "net1" "0123456789" "sandbox" in
  let local := vethPair "01234" in
  let after (script : list bool) :=
    snd (run (joinEndpoint (Decoded j)) oneNetwork (scriptWorld script)) in
  (replies (trace (after [false])) = [joinError "could not create veth pair"] /\
   calls (trace (after [false])) = [CLinkAdd local] /\
   world (after [false]) = scriptWorld []) /\
  (replies (trace (after [true; false])) = [joinError bridgeNotPresent] /\
   calls (trace (after [true; false])) = [CLinkAdd local; CLinkByName "weave"] /\
   world (after [true; false]) = scriptWorld []) /\
  (replies (trace (snd (run (joinEndpoint (Decoded j)) oneNetwork noBridgeWorld)))
     = [joinError notABridge] /\
   calls (trace (snd (run (joinEndpoint (Decoded j)) oneNetwork noBridgeWorld)))
     = [CLinkAdd local; CLinkByName "weave"] /\
   world (snd (run (joinEndpoint (Decoded j)) oneNetwork noBridgeWorld))
     = stubCalled (stubCalled noBridgeWorld)) /\
  (replies (trace (after [true; true; false])) =
     [joinError "unable to bring veth up"] /\
   calls (trace (after [true; true; false])) =
     [CLinkAdd local; CLinkByName "weave"; CLinkSetMaster local "weave"] /\
   world (after [true; true; false]) = scriptWorld []) /\
  (replies (trace (after [true; true; true; false])) =
     [joinError "unable to bring veth up"] /\
   calls (trace (after [true; true; true; false])) =
     [CLinkAdd local; CLinkByName "weave"; CLinkSetMaster local "weave";
      CLinkSetUp local] /\
   world (after [true; true; true; false]) = scriptWorld []).
Proof.
  cbv zeta. split; [|split; [|split; [|split]]].
  - destruct (join_failures_keep_the_pair (W := scripted)
                (Api.mkJoin "net1" "0123456789" "sandbox") oneNetwork
                (scriptWorld [false])) as (_ & H & _); [vm_compute; lia|].
    apply (H "scripted failure"). reflexivity.
  - destruct (join_failures_keep_the_pair (W := scripted)
                (Api.mkJoin "net1" "0123456789" "sandbox") oneNetwork
                (scriptWorld [true; false])) as (_ & _ & H & _); [vm_compute; lia|].
    apply (H "scripted failure" (scriptWorld [false])); reflexivity.
  - destruct (join_failures_keep_the_pair (W := stub)
                (Api.mkJoin "net1" "0123456789" "sandbox") oneNetwork
                noBridgeWorld) as (_ & _ & _ & H & _); [vm_compute; lia|].
    apply (H (Device "dummy" "weave") (stubCalled noBridgeWorld));
      [reflexivity | reflexivity | discriminate].
  - destruct (join_failures_keep_the_pair (W := scripted)
                (Api.mkJoin "net1" "0123456789" "sandbox") oneNetwork
                (scriptWorld [true; true; false])) as (_ & _ & _ & _ & H & _);
      [vm_compute; lia|].
    apply (H "weave" "scripted failure"
             (scriptWorld [true; false]) (scriptWorld [false])); reflexivity.
  - destruct (join_failures_keep_the_pair (W := scripted)
                (Api.mkJoin "net1" "0123456789" "sandbox") oneNetwork
                (scriptWorld [true; true; true; false])) as (_ & _ & _ & _ & _ & H);
      [vm_compute; lia|].
    apply (H "weave" "scripted failure" (scriptWorld [true; true; false])
             (scriptWorld [true; false]) (scriptWorld [false])); reflexivity.
Defined.

Lemma join_success_answer_witness :
  let '(o, s') :=
    run (joinEndpoint (Decoded (Api.mkJoin "net1" "0123456789" "sandbox")))
      withNameserver goodWorld in
  o = Done tt /\
  drv s' = withNameserver /\
  world s' = stubCalled (stubCalled (stubCalled (stubCalled goodWorld))) /\
  calls (trace s') =
    [CLinkAdd (vethPair "01234"); CLinkByName "weave";
     CLinkSetMaster (vethPair "01234") "weave"; CLinkSetUp (vethPair "01234")] /\
  replies (trace s') =
    [Json (PJoin (Api.mkJoinResponse
                    (Api.mkInterfaceName "vethwg01234" "ethwe")
                    [Api.mkStaticRoute "10.0.0.53/32" Api.CONNECTED EmptyString]))].
Proof.
  apply (join_success_answer (W := stub)
           (Api.mkJoin "net1" "0123456789" "sandbox") withNameserver goodWorld
           "weave" (stubCalled goodWorld) (stubCalled (stubCalled goodWorld))
           (stubCalled (stubCalled (stubCalled goodWorld)))
           (stubCalled (stubCalled (stubCalled (stubCalled goodWorld)))));
    [vm_compute; lia | reflexivity | reflexivity | reflexivity | reflexivity].
Defined.

Lemma join_depends_on_prefix_only_witness :
  let s1 := snd (run (joinEndpoint
                        (Decoded (Api.mkJoin "net1" "0123456789" "sandbox")))
                   oneNetwork goodWorld) in
  let s2 := snd (run (joinEndpoint
                        (Decoded (Api.mkJoin "other" "01234zzzz" "elsewhere")))
                   (New "1.0") goodWorld) in
  replies (trace s1) = replies (trace s2) /\
  calls (trace s1) = calls (trace s2) /\
  world s1 = world s2.
Proof.
  apply (join_depends_on_prefix_only (W := stub)
           (Api.mkJoin "net1" "0123456789" "sandbox")
           (Api.mkJoin "other" "01234zzzz" "elsewhere")
           oneNetwork (New "1.0") goodWorld);
    [vm_compute; lia | vm_compute; lia | reflexivity | reflexivity].
Defined.

Lemma leaveEndpoint_deletes_then_answers_witness :
  run (leaveEndpoint (Decoded (Api.mkLeave "net1" "0123456789")))
    (New "1.0") badWorld =
    (Done tt,
     mkSys (New "1.0") (stubCalled badWorld)
       [ELog Debug "Leave request: %+v" [LVal ["net1"; "0123456789"]];
        ECall (CLinkDel (vethPair "01234"));
        ELog Warning "unable to delete veth on leave: %s" [LStr "stub failure"];
        EReply (Json PEmpty);
        ELog Info "Leave %s:%s" [LStr "net1"; LStr "0123456789"]]).
Proof.
  exact (leaveEndpoint_deletes_then_answers (W := stub)
           (Api.mkLeave "net1" "0123456789") (New "1.0") badWorld
           ltac:(vm_compute; lia)).
Defined.

Lemma endpoint_lifecycle_witness :
  exists (s' : sys stub) (r1 r2 : reply) (rest : list call),
    serveRequests
      [CreateEndpoint (Decoded (Api.mkCreateEndpoint "net1" "0123456789"));
       Join (Decoded (Api.mkJoin "net1" "0123456789" "sandbox"));
       Leave (Decoded (Api.mkLeave "net1" "0123456789"));
       DeleteEndpoint (Decoded (Api.mkDeleteEndpoint "net1" "0123456789"))]
      (mkSys oneNetwork goodWorld []) = (Done tt, s') /\
    drv s' = oneNetwork /\
    replies (trace s') = [r1; r2; Json PEmpty; Json PEmpty] /\
    calls (trace s') =
      CAllocateIP "0123456789" :: CLinkAdd (vethPair "01234") :: rest ++
      [CLinkDel (vethPair "01234"); CReleaseIP "0123456789"] /\
    Forall (fun v => v = vethPair "01234") (omap callVeth rest).
Proof.
  apply (endpoint_lifecycle (W := stub) "net1" "0123456789" "sandbox"
           (mkSys oneNetwork goodWorld []));
    [reflexivity | vm_compute; lia].
Defined.

Lemma SetNameserver_then_join_witness :
  SetNameserver parseOnlyDNS "dns.example" oneNetwork =
    (Some ("cannot parse IP address " +:+ dquote +:+ "dns.example" +:+ dquote),
     oneNetwork) /\
  SetNameserver parseOnlyDNS "10.0.0.53" oneNetwork = (None, withNameserver) /\
  replies (trace (snd (run (joinEndpoint
                              (Decoded (Api.mkJoin "net1" "0123456789" "sandbox")))
                         (snd (SetNameserver parseOnlyDNS "10.0.0.53" oneNetwork))
                         goodWorld))) =
    [Json (PJoin (Api.mkJoinResponse
                    (Api.mkInterfaceName "vethwg01234" "ethwe")
                    [Api.mkStaticRoute "10.0.0.53/32" Api.CONNECTED EmptyString]))].
Proof.
  split; [|split].
  - destruct (SetNameserver_then_join (W := stub) parseOnlyDNS
                "dns.example" oneNetwork) as (H & _).
    apply H. reflexivity.
  - destruct (SetNameserver_then_join (W := stub) parseOnlyDNS
                "10.0.0.53" oneNetwork) as (_ & H & _).
    apply H. vm_compute. discriminate.
  - destruct (SetNameserver_then_join (W := stub) parseOnlyDNS
                "10.0.0.53" oneNetwork) as (_ & _ & H).
    apply (H ltac:(vm_compute; discriminate) ltac:(vm_compute; discriminate)
             (Api.mkJoin "net1" "0123456789" "sandbox") goodWorld
             (stubCalled goodWorld) (stubCalled (stubCalled goodWorld))
             (stubCalled (stubCalled (stubCalled goodWorld)))
             (stubCalled (stubCalled (stubCalled (stubCalled goodWorld))))
             "weave");
      [vm_compute; lia | reflexivity | reflexivity | reflexivity | reflexivity].
Defined.
